(** * vr_game_prototype: the Material Renamer and the Build Stager

    A shallow embedding of [materials/format_directories.py] and [stage.py].
    Both scripts are straight-line drivers of filesystem calls, so the
    development has three layers:

    - a model of the filesystem as a tree of named nodes, with the calls the
      scripts make ([os.scandir], [os.rename], [os.path.exists], [os.mkdir],
      [shutil.rmtree], [shutil.copytree], [shutil.copy], py7zr's
      [SevenZipFile]) following the documented POSIX behaviour of each call;
    - the two scripts, written in a state-and-exception monad so that they
      read line by line like the Python;
    - the properties of the scripts.

    Conventions.  Paths are the strings the scripts build (["./mat/a.png"]);
    they are resolved by splitting at ["/"].  Names are the byte strings the
    filesystem holds; where the script looks into a name ([re.search]) it
    sees the [str] Python decodes from the bytes, UTF-8 with
    [surrogateescape], and compares it as [re.IGNORECASE] does.  Standard
    output takes every line as it comes.  A directory lists its entries in
    enumeration order; [os.scandir] hands out the listing as it is when the
    loop starts.
    [os.rename] replaces a file by a file and an empty directory by a
    directory, and does nothing when both paths are the same.  [writeall]
    without an archive name stores every member under the path it was
    reached by, the entries of a directory in sorted order.  The build is an
    external program and enters as a function from the working directory
    to an exit code and the working directory it leaves; the clock enters
    only as the text of the elapsed time.  Symbolic links are not
    modelled. *)

From Stdlib Require Import List String Ascii Bool Arith NArith ZArith Lia.
From Stdlib Require Import Strings.Byte.
Import ListNotations.
Local Open Scope list_scope.
Local Open Scope string_scope.

Set Implicit Arguments.
Set Warnings "-register-all".

(* ================================================================== *)
(** * Exceptions and results *)

(** The Python exceptions the modelled calls can raise. *)
Inductive exn : Type :=
| FileNotFoundError
| FileExistsError
| NotADirectoryError
| IsADirectoryError
| OSError_ENOTEMPTY
| OSError_EINVAL
| ValueError
| SameFileError
| CalledProcessError (returncode : Z).

Inductive result (A : Type) : Type :=
| Ok (a : A)
| Raise (e : exn).
Arguments Ok {A} a.
Arguments Raise {A} e.

(** Exit status of the interpreter: 0 when the script runs to its end, 1
    when an exception is left uncaught. *)
Definition exit_status {A} (r : result A) : Z :=
  match r with Ok _ => 0%Z | Raise _ => 1%Z end.

(* ================================================================== *)
(** * The filesystem tree *)

(** What a regular file holds: plain bytes, or a 7z container described by
    its member listing (the compressed encoding itself is not modelled). *)
Inductive data : Type :=
| Bytes (b : list byte)
| SevenZ (members : list (string * option data)).

(** A member of an archive is a directory ([None]) or a file. *)
Definition member : Type := option data.
Definition MDir : member := None.
Definition MFile (d : data) : member := Some d.

Inductive node : Type :=
| File (d : data)
| Dir (ents : list (string * node)).

Definition entries : Type := list (string * node).

Definition is_dir (n : node) : bool :=
  match n with Dir _ => true | File _ => false end.

(** ** One directory: an association list in enumeration order *)

Fixpoint lookup (k : string) (l : entries) : option node :=
  match l with
  | [] => None
  | (k', v) :: l' => if String.eqb k k' then Some v else lookup k l'
  end.

(** Remove the entry called [k]. *)
Fixpoint delete (k : string) (l : entries) : entries :=
  match l with
  | [] => []
  | (k', v) :: l' =>
      if String.eqb k k' then delete k l' else (k', v) :: delete k l'
  end.

(** Write [v] under [k]: in place when the name exists, else as a new last
    entry. *)
Fixpoint upsert (k : string) (v : node) (l : entries) : entries :=
  match l with
  | [] => [(k, v)]
  | (k', v') :: l' =>
      if String.eqb k k' then (k, v) :: l' else (k', v') :: upsert k v l'
  end.

Definition names (l : entries) : list string := map fst l.

(** ** Paths *)

(** Split at every occurrence of a separator. *)
Fixpoint split_on (sep : ascii) (s : string) : list string :=
  match s with
  | EmptyString => [""]
  | String c s' =>
      if Ascii.eqb c sep then "" :: split_on sep s'
      else match split_on sep s' with
           | [] => [String c ""]
           | h :: t => String c h :: t
           end
  end.

Definition components (s : string) : list string := split_on "/" s.

(** Empty components and ["."] do not move; what is left is the walk from
    the working directory. *)
Definition resolve (p : string) : list string :=
  filter (fun c => negb (String.eqb c "" || String.eqb c ".")) (components p).

Fixpoint ends_with_slash (s : string) : bool :=
  match s with
  | EmptyString => false
  | String c EmptyString => Ascii.eqb c "/"
  | String _ s' => ends_with_slash s'
  end.

(** [os.path.join] of a directory path and a name. *)
Definition path_join (p name : string) : string :=
  if ends_with_slash p then p ++ name else p ++ "/" ++ name.

(** [os.path.basename]: what follows the last ["/"]. *)
Definition basename (p : string) : string := last (components p) "".

(** Follow a walk from a node. *)
Fixpoint get (p : list string) (n : node) : option node :=
  match p with
  | [] => Some n
  | c :: p' =>
      match n with
      | File _ => None
      | Dir ents =>
          match lookup c ents with
          | Some ch => get p' ch
          | None => None
          end
      end
  end.

(** Rewrite the entry a walk ends in.  [f] receives what is there now and
    answers with what shall be there ([None]: nothing); the directories on
    the way must exist. *)
Fixpoint alter (p : list string) (f : option node -> result (option node))
         (n : node) : result node :=
  match n with
  | File _ => Raise NotADirectoryError
  | Dir ents =>
      match p with
      | [] => Raise OSError_EINVAL
      | [c] =>
          match f (lookup c ents) with
          | Ok (Some v) => Ok (Dir (upsert c v ents))
          | Ok None => Ok (Dir (delete c ents))
          | Raise e => Raise e
          end
      | c :: p' =>
          match lookup c ents with
          | None => Raise FileNotFoundError
          | Some ch =>
              match alter p' f ch with
              | Ok ch' => Ok (Dir (upsert c ch' ents))
              | Raise e => Raise e
              end
          end
      end
  end.

Fixpoint is_prefix (p q : list string) : bool :=
  match p, q with
  | [], _ => true
  | _ :: _, [] => false
  | a :: p', b :: q' => String.eqb a b && is_prefix p' q'
  end.

Definition walk_eqb (p q : list string) : bool :=
  is_prefix p q && is_prefix q p.

(** ** Well-formed trees *)

Fixpoint no_slash (s : string) : bool :=
  match s with
  | EmptyString => true
  | String c s' => negb (Ascii.eqb c "/") && no_slash s'
  end.

(** A name a directory entry can bear. *)
Definition valid_name (s : string) : bool :=
  negb (String.eqb s "") && negb (String.eqb s ".")
  && negb (String.eqb s "..") && no_slash s.

Fixpoint distinct (l : list string) : bool :=
  match l with
  | [] => true
  | x :: l' => negb (existsb (String.eqb x) l') && distinct l'
  end.

(** The entries of one directory: valid names, no name twice. *)
Definition wf_entries (l : entries) : bool :=
  forallb valid_name (names l) && distinct (names l).

Fixpoint wf (n : node) : bool :=
  match n with
  | File _ => true
  | Dir ents =>
      wf_entries ents
      && (fix wf_all (l : entries) : bool :=
            match l with
            | [] => true
            | (_, ch) :: l' => wf ch && wf_all l'
            end) ents
  end.

(* ================================================================== *)
(** * The machine: filesystem, standard output, exceptions *)

(** A line written by [print]. *)
Inductive line : Type :=
| Moved (src dst : string)       (* "Moved %s to %s" *)
| Compressing                    (* "Compressing build..." *)
| DoneIn (seconds : string).     (* "Done! in %.4f seconds" *)

Definition render (l : line) : string :=
  match l with
  | Moved src dst => "Moved " ++ src ++ " to " ++ dst
  | Compressing => "Compressing build..."
  | DoneIn s => "Done! in " ++ s ++ " seconds"
  end.

Record state : Type := mkState {
  fs : node;                (* the working directory *)
  stdout : list line        (* oldest line first *)
}.

(** A command runs from a state to a result and the state it leaves; an
    exception keeps the effects made before it. *)
Definition M (A : Type) : Type := state -> result A * state.

Definition ret {A} (a : A) : M A := fun s => (Ok a, s).

Definition bind {A B} (m : M A) (k : A -> M B) : M B :=
  fun s => match m s with
           | (Ok a, s') => k a s'
           | (Raise e, s') => (Raise e, s')
           end.

Definition raise {A} (e : exn) : M A := fun s => (Raise e, s).

Notation "x <- m ;; k" := (bind m (fun x => k))
  (at level 61, m at next level, right associativity).
Notation "m ;;; k" := (bind m (fun _ => k))
  (at level 61, right associativity).

(** [for x in xs: body]. *)
Fixpoint for_each {A} (xs : list A) (body : A -> M unit) : M unit :=
  match xs with
  | [] => ret tt
  | x :: xs' => body x ;;; for_each xs' body
  end.

Definition print (l : line) : M unit :=
  fun s => (Ok tt, mkState (fs s) (stdout s ++ [l])%list).

(** A filesystem call that changes the tree, all or nothing. *)
Definition fs_update (f : node -> result node) : M unit :=
  fun s => match f (fs s) with
           | Ok n => (Ok tt, mkState n (stdout s))
           | Raise e => (Raise e, s)
           end.

(** The state a script starts in. *)
Definition boot (root : node) : state := mkState root [].

(* ================================================================== *)
(** * The library calls *)

(** ** os *)

(** What [os.scandir] yields for each entry. *)
Record DirEntry : Type := mkDirEntry {
  de_name : string;          (* entry.name *)
  de_path : string;          (* entry.path *)
  de_is_dir : bool           (* entry.is_dir() *)
}.

Definition scan (p : string) (ents : entries) : list DirEntry :=
  map (fun kv => mkDirEntry (fst kv) (path_join p (fst kv)) (is_dir (snd kv)))
      ents.

(** [os.scandir(p)]: the listing of the directory at [p]. *)
Definition os_scandir (p : string) : M (list DirEntry) :=
  fun s => match get (resolve p) (fs s) with
           | None => (Raise FileNotFoundError, s)
           | Some (File _) => (Raise NotADirectoryError, s)
           | Some (Dir ents) => (Ok (scan p ents), s)
           end.

(** May a node of kind [src] replace what is at the destination?  A file
    replaces a file, a directory replaces an empty directory. *)
Definition replace_check (src : node) (dst : option node) : result unit :=
  match dst, src with
  | None, _ => Ok tt
  | Some (File _), File _ => Ok tt
  | Some (Dir _), File _ => Raise IsADirectoryError
  | Some (File _), Dir _ => Raise NotADirectoryError
  | Some (Dir []), Dir _ => Ok tt
  | Some (Dir (_ :: _)), Dir _ => Raise OSError_ENOTEMPTY
  end.

Definition rename_tree (src dst : list string) (root : node) : result node :=
  match get src root with
  | None => Raise FileNotFoundError
  | Some nd =>
      if walk_eqb src dst then Ok root
      else if is_prefix src dst then Raise OSError_EINVAL
      else
        match replace_check nd (get dst root) with
        | Raise e => Raise e
        | Ok _ =>
            match alter src (fun _ => Ok None) root with
            | Raise e => Raise e
            | Ok root1 => alter dst (fun _ => Ok (Some nd)) root1
            end
        end
  end.

(** [os.rename(src, dst)]. *)
Definition os_rename (src dst : string) : M unit :=
  fs_update (rename_tree (resolve src) (resolve dst)).

(** [os.path.exists(p)]. *)
Definition os_path_exists (p : string) : M bool :=
  fun s => (Ok (match get (resolve p) (fs s) with
                | Some _ => true
                | None => false
                end), s).

(** [os.mkdir(p)]. *)
Definition os_mkdir (p : string) : M unit :=
  fs_update (alter (resolve p)
               (fun old => match old with
                           | Some _ => Raise FileExistsError
                           | None => Ok (Some (Dir []))
                           end)).

(** ** shutil *)

(** [shutil.rmtree(p)]: [p] must be a directory; it goes with all it
    holds. *)
Definition shutil_rmtree (p : string) : M unit :=
  fs_update (fun root =>
    match get (resolve p) root with
    | None => Raise FileNotFoundError
    | Some (File _) => Raise NotADirectoryError
    | Some (Dir _) => alter (resolve p) (fun _ => Ok None) root
    end).

(** [os.makedirs(dst)] followed by filling the new directory: missing
    directories on the way are created, the last one must be new. *)
Fixpoint makedirs_with (p : list string) (v : node) (n : node)
  : result node :=
  match n with
  | File _ => Raise NotADirectoryError
  | Dir ents =>
      match p with
      | [] => Raise FileExistsError
      | [c] =>
          match lookup c ents with
          | Some _ => Raise FileExistsError
          | None => Ok (Dir (upsert c v ents))
          end
      | c :: p' =>
          match makedirs_with p' v
                  (match lookup c ents with Some ch => ch | None => Dir [] end)
          with
          | Ok ch' => Ok (Dir (upsert c ch' ents))
          | Raise e => Raise e
          end
      end
  end.

(** [shutil.copytree(src, dst)]: [src] is listed first, then [dst] is
    made and receives a copy of the whole tree under [src]. *)
Definition shutil_copytree (src dst : string) : M unit :=
  fs_update (fun root =>
    match get (resolve src) root with
    | None => Raise FileNotFoundError
    | Some (File _) => Raise NotADirectoryError
    | Some (Dir ents) => makedirs_with (resolve dst) (Dir ents) root
    end).

(** [shutil.copy(src, dst)]: a destination that is a directory receives
    the file under its own base name. *)
Definition shutil_copy (src dst : string) : M unit :=
  fs_update (fun root =>
    let dst' :=
      match get (resolve dst) root with
      | Some (Dir _) => path_join dst (basename src)
      | _ => dst
      end in
    match get (resolve src) root with
    | None => Raise FileNotFoundError
    | Some (Dir _) => Raise IsADirectoryError
    | Some (File d) =>
        if walk_eqb (resolve src) (resolve dst') then Raise SameFileError
        else alter (resolve dst')
               (fun old => match old with
                           | Some (Dir _) => Raise IsADirectoryError
                           | _ => Ok (Some (File d))
                           end) root
    end).

(** ** subprocess *)

(** How a launched program ends: with a return code, leaving the tree as
    it made it, or not at all when the program cannot be found. *)
Inductive completed : Type :=
| Exited (returncode : Z) (after : node)
| NoSuchProgram.

(** [subprocess.run(args, check=True)] for a program given by what it
    does to the working directory. *)
Definition subprocess_run_check (prog : node -> completed) : M unit :=
  fun s => match prog (fs s) with
           | NoSuchProgram => (Raise FileNotFoundError, s)
           | Exited rc after =>
               if Z.eqb rc 0 then (Ok tt, mkState after (stdout s))
               else (Raise (CalledProcessError rc), mkState after (stdout s))
           end.

(** ** py7zr *)

Definition listing : Type := list (string * member).

(** Insertion sort of named groups by name, the order of
    [sorted(os.listdir(path))]. *)
Fixpoint insert_by_name {A} (x : string * A) (l : list (string * A))
  : list (string * A) :=
  match l with
  | [] => [x]
  | y :: l' =>
      if String.leb (fst x) (fst y) then x :: y :: l'
      else y :: insert_by_name x l'
  end.

Fixpoint sort_by_name {A} (l : list (string * A)) : list (string * A) :=
  match l with
  | [] => []
  | x :: l' => insert_by_name x (sort_by_name l')
  end.

(** [SevenZipFile._writeall(path, arcname=None)]: a file is written under
    the path it was reached by; a directory is written itself (unless it is
    the working directory) and then its entries in sorted order, each under
    the path joined with its name. *)
Fixpoint writeall_walk (path : string) (n : node) : listing :=
  match n with
  | File d => [(path, MFile d)]
  | Dir ents =>
      ((match resolve path with [] => [] | _ :: _ => [(path, MDir)] end)
       ++ List.concat (map snd (sort_by_name
            ((fix each (l : entries) : list (string * listing) :=
                match l with
                | [] => []
                | (nm, ch) :: l' =>
                    (nm, writeall_walk (path ++ "/" ++ nm) ch) :: each l'
                end) ents))))%list
  end.

(** [archive.writeall(path)]: the members to be written. *)
Definition writeall (path : string) : M listing :=
  fun s => match get (resolve path) (fs s) with
           | None => (Raise ValueError, s)
           | Some n => (Ok (writeall_walk path n), s)
           end.

(** Store a file, replacing what the name held. *)
Definition write_file (file : string) (d : data) : M unit :=
  fs_update (alter (resolve file)
               (fun old => match old with
                           | Some (Dir _) => Raise IsADirectoryError
                           | _ => Ok (Some (File d))
                           end)).

(** [with SevenZipFile(file, "w") as archive: body]: the file is created
    or truncated on entry; on exit the container is written with the
    members [body] produced (none if it raised, and the exception goes
    on). *)
Definition with_SevenZipFile_w (file : string) (body : M listing) : M unit :=
  write_file file (Bytes []) ;;;
  (fun s => match body s with
            | (Ok members, s') => write_file file (SevenZ members) s'
            | (Raise e, s') =>
                (Raise e, snd (write_file file (SevenZ []) s'))
            end).

(** ** str and re *)

(** A code point of a [str]. *)
Definition codepoint : Type := N.

(** A continuation byte of UTF-8: 0x80 to 0xBF. *)
Definition continuation (b : N) : bool := (128 <=? b)%N && (b <=? 191)%N.

(** The second byte a three-byte sequence may have after the lead [b0]:
    no overlong form after 0xE0, no surrogate after 0xED. *)
Definition second_of_three (b0 b1 : N) : bool :=
  if (b0 =? 224)%N then (160 <=? b1)%N && (b1 <=? 191)%N
  else if (b0 =? 237)%N then (128 <=? b1)%N && (b1 <=? 159)%N
  else continuation b1.

(** The second byte a four-byte sequence may have after the lead [b0]:
    no overlong form after 0xF0, nothing above U+10FFFF after 0xF4. *)
Definition second_of_four (b0 b1 : N) : bool :=
  if (b0 =? 240)%N then (144 <=? b1)%N && (b1 <=? 191)%N
  else if (b0 =? 244)%N then (128 <=? b1)%N && (b1 <=? 143)%N
  else continuation b1.

(** [os.fsdecode]: the [str] Python makes of the bytes of a name, UTF-8
    with the [surrogateescape] handler.  A byte that starts no valid
    sequence becomes the lone surrogate U+DC00 + byte, and decoding goes on
    at the next byte. *)
Fixpoint fsdecode (s : string) : list codepoint :=
  match s with
  | EmptyString => []
  | String c0 s1 =>
      let b0 := N_of_ascii c0 in
      if (b0 <? 128)%N then b0 :: fsdecode s1
      else
        match s1 with
        | EmptyString => (56320 + b0)%N :: fsdecode s1
        | String c1 s2 =>
            let b1 := N_of_ascii c1 in
            if (194 <=? b0)%N && (b0 <=? 223)%N then
              if continuation b1
              then ((b0 - 192) * 64 + (b1 - 128))%N :: fsdecode s2
              else (56320 + b0)%N :: fsdecode s1
            else
              match s2 with
              | EmptyString => (56320 + b0)%N :: fsdecode s1
              | String c2 s3 =>
                  let b2 := N_of_ascii c2 in
                  if (224 <=? b0)%N && (b0 <=? 239)%N then
                    if second_of_three b0 b1 && continuation b2
                    then ((b0 - 224) * 4096 + (b1 - 128) * 64
                          + (b2 - 128))%N :: fsdecode s3
                    else (56320 + b0)%N :: fsdecode s1
                  else
                    match s3 with
                    | EmptyString => (56320 + b0)%N :: fsdecode s1
                    | String c3 s4 =>
                        let b3 := N_of_ascii c3 in
                        if (240 <=? b0)%N && (b0 <=? 244)%N
                           && second_of_four b0 b1
                           && continuation b2 && continuation b3
                        then ((b0 - 240) * 262144 + (b1 - 128) * 4096
                              + (b2 - 128) * 64 + (b3 - 128))%N
                             :: fsdecode s4
                        else (56320 + b0)%N :: fsdecode s1
                    end
              end
        end
  end.

(** What [re.IGNORECASE] makes of a character when it is compared with
    an ASCII character of a pattern: the capitals A to Z go to their small
    letters, and so do the four other characters that the [re] module lets
    stand for an ASCII letter: U+017F (long s) for s, U+212A (Kelvin sign)
    for k, U+0130 and U+0131 (dotted capital and dotless small i) for i.
    Two characters, one of them ASCII, match without regard to case
    exactly when they have the same image. *)
Definition fold (c : codepoint) : codepoint :=
  if (65 <=? c)%N && (c <=? 90)%N then (c + 32)%N
  else if (c =? 383)%N then 115%N
  else if (c =? 8490)%N then 107%N
  else if (c =? 304)%N || (c =? 305)%N then 105%N
  else c.

(** A name or a word of a pattern as [re.IGNORECASE] compares it. *)
Definition casefold (s : string) : list codepoint := map fold (fsdecode s).

Fixpoint starts_with (p s : list codepoint) : bool :=
  match p, s with
  | [], _ => true
  | _ :: _, [] => false
  | a :: p', b :: s' => N.eqb a b && starts_with p' s'
  end.

(** Does [p] occur somewhere in [s]? *)
Fixpoint occurs (p s : list codepoint) : bool :=
  starts_with p s
  || match s with
     | [] => false
     | _ :: s' => occurs p s'
     end.

(** [re.search(pattern, text, re.IGNORECASE)] as a truth value, for the
    patterns of the table: words of ASCII letters and ["_"] joined by
    ["|"].  Such a pattern is found when one of its words occurs in the
    text, character by character without regard to case. *)
Definition re_search (pattern text : string) : bool :=
  existsb (fun alt => occurs (casefold alt) (casefold text))
          (split_on "|" pattern).

(* ================================================================== *)
(** * materials/format_directories.py *)

Definition r_expressions : list string :=
  ["albedo|Base_Color"; "normal"; "roughness"].
Definition out_names : list string := ["albedo"; "normal"; "roughness"].

(** The loop [for i in range(0, len(r_expressions))] over one entry [e] of
    the directory [entry]; the first hit renames, prints and breaks. *)
Fixpoint pattern_loop (entry e : DirEntry) (range : list nat) : M unit :=
  match range with
  | [] => ret tt
  | i :: rest =>
      if re_search (nth i r_expressions "") (de_name e) then
        let new_path := de_path entry ++ "/" ++ nth i out_names "" ++ ".png" in
        os_rename (de_path e) new_path ;;;
        print (Moved (de_path e) new_path)
      else pattern_loop entry e rest
  end.

Definition format_directories : M unit :=
  top <- os_scandir "." ;;
  for_each top (fun entry =>
    if de_is_dir entry then
      inner <- os_scandir (de_path entry) ;;
      for_each inner (fun e =>
        pattern_loop entry e (seq 0 (List.length r_expressions)))
    else ret tt).


(* ================================================================== *)
(** * stage.py *)

Definition staging_dir : string := "dist".
Definition dirs : list string := ["materials"; "models"; "shaders"; "skyboxes"].

Section Stage.

(** [cargo build --release], by its effect on the working directory. *)
Variable cargo : node -> completed.

(** The elapsed time as ["%.4f"] prints it. *)
Variable seconds : string.

Definition stage : M unit :=
  exists_ <- os_path_exists staging_dir ;;
  (if exists_ : bool then shutil_rmtree staging_dir else ret tt) ;;;
  subprocess_run_check cargo ;;;
  os_mkdir staging_dir ;;;
  for_each dirs (fun d =>
    shutil_copytree d (staging_dir ++ "/" ++ d)) ;;;
  shutil_copy "target/release/hot_chickens.exe" (staging_dir ++ "/") ;;;
  print Compressing ;;;
  with_SevenZipFile_w "hot_chickens.7z" (writeall staging_dir) ;;;
  shutil_rmtree staging_dir ;;;
  print (DoneIn seconds).

End Stage.

(** ** The stager in parts *)

(** Lines 14 to 29: what follows the build. *)
Definition stage_after_build (seconds : string) : M unit :=
  os_mkdir staging_dir ;;;
  for_each dirs (fun d =>
    shutil_copytree d (staging_dir ++ "/" ++ d)) ;;;
  shutil_copy "target/release/hot_chickens.exe" (staging_dir ++ "/") ;;;
  print Compressing ;;;
  with_SevenZipFile_w "hot_chickens.7z" (writeall staging_dir) ;;;
  shutil_rmtree staging_dir ;;;
  print (DoneIn seconds).

(** Lines 23 to 29: what follows the assembling of the staging
    directory. *)
Definition stage_archive (seconds : string) : M unit :=
  print Compressing ;;;
  with_SevenZipFile_w "hot_chickens.7z" (writeall staging_dir) ;;;
  shutil_rmtree staging_dir ;;;
  print (DoneIn seconds).

(** The staging tree that lines 14 to 19 assemble from the working
    directory [t] the build left: the four asset directories under their
    names, and the executable. *)
Definition staged (t : entries) : option node :=
  match lookup "materials" t, lookup "models" t, lookup "shaders" t,
        lookup "skyboxes" t,
        get ["target"; "release"; "hot_chickens.exe"] (Dir t) with
  | Some (Dir m), Some (Dir mo), Some (Dir sh), Some (Dir sk),
    Some (File x) =>
      Some (Dir [("materials", Dir m); ("models", Dir mo);
                 ("shaders", Dir sh); ("skyboxes", Dir sk);
                 ("hot_chickens.exe", File x)])
  | _, _, _, _, _ => None
  end.

(** The members of the archive a state holds at the fixed output name. *)
Definition archive_of (st : state) : option listing :=
  match get (resolve "hot_chickens.7z") (fs st) with
  | Some (File (SevenZ ms)) => Some ms
  | _ => None
  end.

(** The build leaves alone what a walk leads to. *)
Definition build_leaves (cargo : node -> completed) (p : list string) : Prop :=
  forall n rc after, cargo n = Exited rc after -> get p after = get p n.

(** A walk written as a path. *)
Fixpoint join_path (p : list string) : string :=
  match p with
  | [] => ""
  | [c] => c
  | c :: p' => c ++ "/" ++ join_path p'
  end.

(** What a node is as a member of an archive. *)
Definition member_of (n : node) : member :=
  match n with
  | File d => MFile d
  | Dir _ => MDir
  end.

(** A listing with every member path put under a directory. *)
Definition under (dir : string) (ms : listing) : listing :=
  map (fun pm => (dir ++ "/" ++ fst pm, snd pm)) ms.

(* ================================================================== *)
(** * The renamer seen from inside one directory

    Every rename the script asks for stays inside one child directory, so
    its effect can be told on the listing of that directory alone.  The
    functions below say what the loops do in those terms; the script is
    proved equal to them further down. *)

(** The index of the first pattern of the table that hits. *)
Definition first_match (name : string) : option nat :=
  find (fun i => re_search (nth i r_expressions "") name)
       (seq 0 (List.length r_expressions)).

(** The file name a pattern index stands for. *)
Definition canon (i : nat) : string := nth i out_names "" ++ ".png".

(** [os.rename] between two names of one directory. *)
Definition rename_entries (a b : string) (l : entries) : result entries :=
  match lookup a l with
  | None => Raise FileNotFoundError
  | Some nd =>
      if String.eqb a b then Ok l
      else match replace_check nd (lookup b l) with
           | Raise e => Raise e
           | Ok _ => Ok (upsert b nd (delete a l))
           end
  end.

Definition outcome : Type := (result unit * entries * list line)%type.

(** One entry of the directory at [dpath]. *)
Definition rename_step (dpath name : string) (l : entries) : outcome :=
  match first_match name with
  | None => (Ok tt, l, [])
  | Some i =>
      match rename_entries name (canon i) l with
      | Ok l' =>
          (Ok tt, l', [Moved (path_join dpath name) (dpath ++ "/" ++ canon i)])
      | Raise e => (Raise e, l, [])
      end
  end.

(** The names [os.scandir] listed, one after the other. *)
Fixpoint rename_all (dpath : string) (snap : list string) (l : entries)
  : outcome :=
  match snap with
  | [] => (Ok tt, l, [])
  | name :: snap' =>
      match rename_step dpath name l with
      | (Ok _, l1, o1) =>
          let '(r, l2, o2) := rename_all dpath snap' l1 in
          (r, l2, (o1 ++ o2)%list)
      | (Raise e, l1, o1) => (Raise e, l1, o1)
      end
  end.

(** The entries of the working directory, one after the other. *)
Fixpoint rename_tops (top : entries) : outcome :=
  match top with
  | [] => (Ok tt, [], [])
  | (d, File c) :: rest =>
      let '(r, rest', o) := rename_tops rest in (r, (d, File c) :: rest', o)
  | (d, Dir l) :: rest =>
      match rename_all (path_join "." d) (names l) l with
      | (Ok _, l', o1) =>
          let '(r, rest', o2) := rename_tops rest in
          (r, (d, Dir l') :: rest', (o1 ++ o2)%list)
      | (Raise e, l', o1) => (Raise e, (d, Dir l') :: rest, o1)
      end
  end.

(** The path [os.scandir(".")] gives the entry [d]. *)
Definition top_path (d : string) : string := path_join "." d.

(** The path of [n] inside the entry [d], as [os.scandir] and the format
    string ["%s/%s.png"] both build it. *)
Definition child_path (d n : string) : string := top_path d ++ "/" ++ n.

(* ================================================================== *)
(** * Readings of the specification that the code is compared with *)


(** "The canonical name holds the content of whichever matching file was
    processed last in enumeration order": of the files of a child
    directory whose first hit is pattern [i], the one listed last gives
    the canonical name its content. *)
Definition last_listed_wins (top : entries) : Prop :=
  forall (r : result unit) (st' : state) (d n : string) (l1 l2 : entries)
         (c : data) (i : nat),
    format_directories (boot (Dir top)) = (r, st') ->
    lookup d top = Some (Dir (l1 ++ (n, File c) :: l2)%list) ->
    first_match n = Some i ->
    (forall n', In n' (names l2) -> first_match n' <> Some i) ->
    get [d; canon i] (fs st') = Some (File c).

(** "Paths inside the archive are relative to the staging root": the
    listing of a tree with every entry named by its path from the root of
    the tree, the root itself not being a member. *)
Definition relative_listing (staging : node) : listing :=
  match staging with
  | File _ => []
  | Dir ents =>
      List.concat (map snd (sort_by_name
        (map (fun kv => (fst kv, writeall_walk (fst kv) (snd kv))) ents)))
  end.

(** "The archive contains the entire staging directory tree, and the
    paths of the entries inside the archive are relative to the staging
    root." *)
Definition archived_relative (cargo : node -> completed) (seconds : string)
           (top : entries) : Prop :=
  forall (st' : state) (t1 : entries),
    stage cargo seconds (boot (Dir top)) = (Ok tt, st') ->
    cargo (Dir (delete staging_dir top)) = Exited 0 (Dir t1) ->
    exists staging,
      staged t1 = Some staging /\
      archive_of st' = Some (relative_listing staging).

(* ================================================================== *)
(** * Sample working directories *)

Definition text (s : string) : data := Bytes (list_byte_of_string s).

(** A material directory with two albedo candidates, next to a file at the
    top level whose name matches a pattern. *)
Definition sample_materials : entries :=
  [("roughness_notes.txt", File (text "top"));
   ("wood", Dir [("Wood_Base_Color.jpg", File (text "first"));
                 ("wood_ALBEDO_normal.tga", File (text "second"));
                 ("wood_Normal.png", File (text "bumps"));
                 ("readme.txt", File (text "hello"))])].

(** A material directory on which the script ran before: the canonical
    name is taken, and a new candidate is listed ahead of it. *)
Definition sample_rerun : entries :=
  [("wood", Dir [("new_albedo.jpg", File (text "new"));
                 ("albedo.png", File (text "old"))])].


(** The long s (U+017F) as the two bytes UTF-8 writes it with, and a
    material directory whose textures are spelt with it. *)
Definition long_s : string := String "197"%char (String "191"%char "").

Definition sample_long_s : entries :=
  [("stone",
    Dir [("roughne" ++ long_s ++ "s.png", File (text "rough"));
         ("Ba" ++ long_s ++ "e_Color_normal.png", File (text "colour"))])].

(** A checkout with the four asset directories, a build output, the
    staging directory of a run that was cut short, and the archive of an
    earlier run. *)
Definition sample_checkout : entries :=
  [("materials", Dir [("wood", Dir [("albedo.png", File (text "a"))])]);
   ("models", Dir [("b.glb", File (text "mb")); ("a.glb", File (text "ma"))]);
   ("shaders", Dir []);
   ("skyboxes", Dir [("sky.png", File (text "s"))]);
   ("dist", Dir [("stale", File (text "o"))]);
   ("hot_chickens.7z", File (SevenZ [("dist", MDir)]));
   ("target",
    Dir [("release", Dir [("hot_chickens.exe", File (text "exe"))])])].

(** A build that succeeds and changes nothing, and one that fails with
    cargo's exit code for a compile error. *)
Definition build_ok (n : node) : completed := Exited 0 n.
Definition build_broken (n : node) : completed := Exited 101 n.

(* ================================================================== *)
(** * Further notions used in the properties *)

(** The line the inner loop prints for a listed name, if any. *)
Definition report (dpath name : string) : list line :=
  match first_match name with
  | Some i => [Moved (path_join dpath name) (dpath ++ "/" ++ canon i)]
  | None => []
  end.

(** What a run over the working directory [top] prints when nothing
    stops it: the lines of every directory, in listing order. *)
Definition expected_output (top : entries) : list line :=
  flat_map (fun kv =>
              match snd kv with
              | Dir l => flat_map (report (path_join "." (fst kv))) (names l)
              | File _ => []
              end) top.

(** The exceptions of a rename whose destination is of the wrong kind,
    or is a directory that is not empty. *)
Definition collision (e : exn) : Prop :=
  e = IsADirectoryError \/ e = NotADirectoryError \/ e = OSError_ENOTEMPTY.

(** Every matching entry of every child directory bears its canonical
    name. *)
Definition settled (top : entries) : Prop :=
  forall d l n i,
    lookup d top = Some (Dir l) -> In n (names l) ->
    first_match n = Some i -> n = canon i.

(** A material directory in which every texture bears its canonical
    name. *)
Definition sample_settled : entries :=
  [("wood", Dir [("albedo.png", File (text "colour"));
                 ("readme.txt", File (text "hello"))])].

(** A material directory in which a directory holds the canonical name a
    file is to move onto. *)
Definition sample_collision : entries :=
  [("wood", Dir [("normal.png", Dir [("n1.png", File (text "n1"))]);
                 ("wood_normal.tga", File (text "bumps"));
                 ("wood_albedo.tga", File (text "colour"))])].

(* ================================================================== *)
(** * Directory listings: lookup, delete, upsert *)

Unset Implicit Arguments.

Section Entries.

Implicit Types (k : string) (v : node) (l : entries).

Lemma lookup_upsert_same k v l : lookup k (upsert k v l) = Some v.
Proof.
  induction l as [|[k' v'] l IH]; simpl.
  - now rewrite String.eqb_refl.
  - destruct (String.eqb k k') eqn:E; simpl.
    + now rewrite String.eqb_refl.
    + now rewrite E.
Qed.

Lemma lookup_upsert_other k k' v l :
  k <> k' -> lookup k (upsert k' v l) = lookup k l.
Proof.
  intros N. apply String.eqb_neq in N.
  induction l as [|[k2 v2] l IH]; simpl.
  - now rewrite N.
  - destruct (String.eqb k' k2) eqn:E; simpl.
    + apply String.eqb_eq in E; subst k2. now rewrite N.
    + now rewrite IH.
Qed.

Lemma lookup_delete_same k l : lookup k (delete k l) = None.
Proof.
  induction l as [|[k' v'] l IH]; simpl; auto.
  destruct (String.eqb k k') eqn:E; simpl; auto. now rewrite E.
Qed.

Lemma lookup_delete_other k k' l :
  k <> k' -> lookup k (delete k' l) = lookup k l.
Proof.
  intros N. apply String.eqb_neq in N.
  induction l as [|[k2 v2] l IH]; simpl; auto.
  destruct (String.eqb k' k2) eqn:E; simpl.
  - apply String.eqb_eq in E; subst k2. now rewrite N.
  - now rewrite IH.
Qed.

Lemma upsert_lookup_id k v l : lookup k l = Some v -> upsert k v l = l.
Proof.
  induction l as [|[k' v'] l IH]; simpl; [discriminate|].
  destruct (String.eqb k k') eqn:E.
  - apply String.eqb_eq in E; subst k'. now intros [= ->].
  - intros H. now rewrite IH.
Qed.

Lemma upsert_upsert k v v' l : upsert k v (upsert k v' l) = upsert k v l.
Proof.
  induction l as [|[k' v2] l IH]; simpl.
  - now rewrite String.eqb_refl.
  - destruct (String.eqb k k') eqn:E; simpl.
    + now rewrite String.eqb_refl.
    + now rewrite E, IH.
Qed.

Lemma lookup_In k v l : lookup k l = Some v -> In (k, v) l.
Proof.
  induction l as [|[k' v'] l IH]; simpl; [discriminate|].
  destruct (String.eqb k k') eqn:E.
  - apply String.eqb_eq in E; subst k'. intros [= ->]. now left.
  - intros H. right. auto.
Qed.

Lemma lookup_names k l : lookup k l <> None <-> In k (names l).
Proof.
  induction l as [|[k' v'] l IH]; simpl.
  - split; [congruence | tauto].
  - destruct (String.eqb k k') eqn:E.
    + apply String.eqb_eq in E; subst k'. split; [now left | congruence].
    + apply String.eqb_neq in E. rewrite IH. split; [now right|].
      intros [->|H]; [congruence | exact H].
Qed.

Lemma lookup_None_names k l : lookup k l = None <-> ~ In k (names l).
Proof.
  rewrite <- lookup_names. destruct (lookup k l); split; try congruence.
  intros H. exfalso. apply H. congruence.
Qed.

Lemma names_delete k l :
  forall x, In x (names (delete k l)) <-> In x (names l) /\ x <> k.
Proof.
  intros x. induction l as [|[k' v'] l IH]; simpl; [tauto|].
  destruct (String.eqb k k') eqn:E.
  - apply String.eqb_eq in E; subst k'. rewrite IH. intuition congruence.
  - apply String.eqb_neq in E. simpl. rewrite IH. intuition congruence.
Qed.

Lemma names_upsert k v l :
  forall x, In x (names (upsert k v l)) <-> In x (names l) \/ x = k.
Proof.
  intros x. induction l as [|[k' v'] l IH]; simpl.
  - intuition.
  - destruct (String.eqb k k') eqn:E; simpl.
    + apply String.eqb_eq in E; subst k'. intuition.
    + rewrite IH. intuition.
Qed.

Lemma names_upsert_present k v l :
  In k (names l) -> names (upsert k v l) = names l.
Proof.
  induction l as [|[k' v'] l IH]; simpl; [tauto|].
  destruct (String.eqb k k') eqn:E; simpl.
  - apply String.eqb_eq in E; now subst k'.
  - apply String.eqb_neq in E. intros [H|H]; [congruence|].
    now rewrite IH.
Qed.

End Entries.

(** ** Distinct names *)

Lemma existsb_eqb_In x l : existsb (String.eqb x) l = true <-> In x l.
Proof.
  rewrite existsb_exists. split.
  - intros [y [H E]]. apply String.eqb_eq in E. now subst.
  - intros H. exists x. split; auto. apply String.eqb_refl.
Qed.

Lemma distinct_NoDup l : distinct l = true <-> NoDup l.
Proof.
  induction l as [|x l IH]; simpl.
  - split; auto using NoDup_nil.
  - rewrite andb_true_iff, negb_true_iff, IH. split.
    + intros [H1 H2]. constructor; auto.
      rewrite <- existsb_eqb_In. congruence.
    + intros H. inversion H; subst. split; auto.
      destruct (existsb (String.eqb x) l) eqn:E; auto.
      apply existsb_eqb_In in E. contradiction.
Qed.

Lemma NoDup_names_delete k l : NoDup (names l) -> NoDup (names (delete k l)).
Proof.
  induction l as [|[k' v'] l IH]; simpl; auto.
  intros H. inversion H; subst.
  destruct (String.eqb k k'); auto.
  simpl. constructor; auto.
  rewrite names_delete. tauto.
Qed.

Lemma NoDup_names_upsert k v l : NoDup (names l) -> NoDup (names (upsert k v l)).
Proof.
  induction l as [|[k' v'] l IH]; simpl.
  - intros _. constructor; auto. constructor.
  - intros H. inversion H; subst.
    destruct (String.eqb k k') eqn:E; simpl.
    + apply String.eqb_eq in E; subst k'. now constructor.
    + apply String.eqb_neq in E. constructor; auto.
      rewrite names_upsert. intuition.
Qed.

Lemma NoDup_lookup_app k v pre post :
  ~ In k (names pre) -> lookup k (pre ++ (k, v) :: post)%list = Some v.
Proof.
  induction pre as [|[k' v'] pre IH]; simpl.
  - now rewrite String.eqb_refl.
  - intros H. destruct (String.eqb k k') eqn:E.
    + apply String.eqb_eq in E. subst. tauto.
    + apply IH. tauto.
Qed.

Lemma upsert_app k v v' pre post :
  ~ In k (names pre) ->
  upsert k v' (pre ++ (k, v) :: post)%list = (pre ++ (k, v') :: post)%list.
Proof.
  induction pre as [|[k2 v2] pre IH]; simpl.
  - now rewrite String.eqb_refl.
  - intros H. destruct (String.eqb k k2) eqn:E.
    + apply String.eqb_eq in E. subst. tauto.
    + rewrite IH; tauto.
Qed.

Lemma NoDup_count_one (x : string) l :
  NoDup l -> In x l -> count_occ string_dec l x = 1.
Proof.
  intros ND HIn.
  pose proof (proj1 (NoDup_count_occ string_dec l) ND x) as Hle.
  pose proof (proj1 (count_occ_In string_dec l x) HIn) as Hge.
  lia.
Qed.

(* ================================================================== *)
(** * Paths built by the scripts *)

Lemma wf_Dir (ents : entries) :
  wf (Dir ents) = true <->
  wf_entries ents = true /\ Forall (fun kv => wf (snd kv) = true) ents.
Proof.
  simpl. rewrite andb_true_iff.
  enough (E : forall l,
    (fix wf_all (l : entries) : bool :=
       match l with
       | [] => true
       | (_, ch) :: l' => wf ch && wf_all l'
       end) l = true <-> Forall (fun kv => wf (snd kv) = true) l)
    by (rewrite E; tauto).
  induction l as [|[k v] l IH].
  - split; auto.
  - rewrite andb_true_iff, IH. split.
    + intros [H1 H2]. now constructor.
    + intros H. inversion H; subst. auto.
Qed.

Lemma wf_entries_inv (l : entries) :
  wf_entries l = true <->
  Forall (fun n => valid_name n = true) (names l) /\ NoDup (names l).
Proof.
  unfold wf_entries. rewrite andb_true_iff, forallb_forall, distinct_NoDup.
  now rewrite Forall_forall.
Qed.

Lemma valid_name_inv (n : string) :
  valid_name n = true -> n <> "" /\ n <> "." /\ no_slash n = true.
Proof.
  unfold valid_name. rewrite !andb_true_iff, !negb_true_iff.
  intros [[[H1 H2] _] H3]. apply String.eqb_neq in H1, H2. auto.
Qed.

Lemma components_plain (a : string) :
  no_slash a = true -> components a = [a].
Proof.
  unfold components. induction a as [|c a IH]; simpl; auto.
  rewrite andb_true_iff, negb_true_iff. intros [Hc Ha].
  now rewrite Hc, IH.
Qed.

Lemma components_slash (a b : string) :
  no_slash a = true -> components (a ++ String "/" b) = a :: components b.
Proof.
  unfold components. induction a as [|c a IH]; simpl; auto.
  rewrite andb_true_iff, negb_true_iff. intros [Hc Ha].
  now rewrite Hc, IH.
Qed.

Lemma ends_with_slash_plain (pre a : string) :
  no_slash a = true -> a <> "" -> ends_with_slash (pre ++ a) = false.
Proof.
  intros Ha Hne.
  assert (E : ends_with_slash a = false).
  { clear pre. induction a as [|c a IH]; [congruence|].
    simpl in Ha. apply andb_true_iff in Ha as [Hc Ha].
    apply negb_true_iff in Hc. destruct a as [|c' a]; simpl; auto.
    apply IH; auto. congruence. }
  induction pre as [|c pre IH]; simpl; auto.
  destruct (pre ++ a) eqn:Epa; auto.
  destruct pre; simpl in Epa; congruence.
Qed.

Lemma path_join_top (d : string) : path_join "." d = top_path d.
Proof. reflexivity. Qed.

Lemma path_join_child (d n : string) :
  valid_name d = true -> path_join (top_path d) n = child_path d n.
Proof.
  intros V. apply valid_name_inv in V as (V1 & _ & V3).
  unfold child_path. unfold path_join at 1.
  change (top_path d) with ("./" ++ d).
  rewrite ends_with_slash_plain by assumption. reflexivity.
Qed.

Lemma format_child (d n : string) :
  top_path d ++ "/" ++ n = child_path d n.
Proof. reflexivity. Qed.

Lemma resolve_top (d : string) :
  valid_name d = true -> resolve (top_path d) = [d].
Proof.
  intros V. apply valid_name_inv in V as (V1 & V2 & V3).
  change (top_path d) with (String "." (String "/" d)).
  unfold resolve, components. simpl.
  fold (components d). rewrite components_plain by assumption. simpl.
  apply String.eqb_neq in V1, V2. now rewrite V1, V2.
Qed.

Lemma resolve_child (d n : string) :
  valid_name d = true -> valid_name n = true ->
  resolve (child_path d n) = [d; n].
Proof.
  intros Vd Vn.
  apply valid_name_inv in Vd as (D1 & D2 & D3).
  apply valid_name_inv in Vn as (N1 & N2 & N3).
  change (child_path d n) with (String "." (String "/" (d ++ String "/" n))).
  unfold resolve, components. simpl.
  fold (components (d ++ String "/" n)).
  rewrite components_slash, components_plain by assumption. simpl.
  apply String.eqb_neq in D1, D2, N1, N2. now rewrite D1, D2, N1, N2.
Qed.

Lemma child_path_inj (d n d' n' : string) :
  no_slash d = true -> no_slash d' = true ->
  child_path d n = child_path d' n' -> d = d' /\ n = n'.
Proof.
  intros Hd Hd' E.
  change (child_path d n) with (String "." (String "/" (d ++ String "/" n))) in E.
  change (child_path d' n')
    with (String "." (String "/" (d' ++ String "/" n'))) in E.
  injection E as E.
  revert d' Hd' E. induction d as [|c d IH]; intros [|c' d'] Hd' E; simpl in *.
  - injection E as E. auto.
  - injection E as E1 E2. subst c'. discriminate.
  - injection E as E1 E2. subst c. discriminate.
  - injection E as E1 E2. subst c'.
    apply andb_true_iff in Hd as [_ Hd]. apply andb_true_iff in Hd' as [_ Hd'].
    destruct (IH Hd d' Hd' E2) as [-> ->]. auto.
Qed.

(* ================================================================== *)
(** * The renamer is its directory-level description *)

Lemma rename_tree_child (top l : entries) (d a b : string) :
  lookup d top = Some (Dir l) ->
  rename_tree [d; a] [d; b] (Dir top) =
  match rename_entries a b l with
  | Ok l' => Ok (Dir (upsert d (Dir l') top))
  | Raise e => Raise e
  end.
Proof.
  intros Hd. unfold rename_tree, rename_entries. simpl. rewrite Hd.
  destruct (lookup a l) as [nd|] eqn:Ha; [|reflexivity].
  unfold walk_eqb. simpl. rewrite String.eqb_refl. simpl.
  rewrite !andb_true_r.
  destruct (String.eqb a b) eqn:Eab.
  - rewrite String.eqb_sym, Eab. simpl.
    now rewrite (upsert_lookup_id _ _ _ Hd).
  - simpl.
    replace (match lookup b l with Some ch => Some ch | None => None end)
      with (lookup b l) by (now destruct (lookup b l)).
    destruct (replace_check nd (lookup b l)); [|reflexivity].
    rewrite lookup_upsert_same. now rewrite upsert_upsert.
Qed.

Lemma pattern_loop_find (entry e : DirEntry) (range : list nat) :
  pattern_loop entry e range =
  match find (fun i => re_search (nth i r_expressions "") (de_name e)) range with
  | None => ret tt
  | Some i =>
      os_rename (de_path e)
        (de_path entry ++ "/" ++ nth i out_names "" ++ ".png") ;;;
      print (Moved (de_path e)
               (de_path entry ++ "/" ++ nth i out_names "" ++ ".png"))
  end.
Proof.
  induction range as [|i range IH]; cbn [pattern_loop find]; auto.
  destruct (re_search (nth i r_expressions "") (de_name e)); auto.
Qed.

Lemma canon_valid (i : nat) : valid_name (canon i) = true.
Proof.
  destruct i as [|[|[|[|i]]]]; reflexivity.
Qed.

(** The body of the inner loop on one listed name. *)
Lemma pattern_loop_rename_step (top l : entries) (d n : string) (b b' : bool)
      (out : list line) :
  valid_name d = true -> valid_name n = true ->
  lookup d top = Some (Dir l) ->
  pattern_loop (mkDirEntry d (top_path d) b)
               (mkDirEntry n (path_join (top_path d) n) b')
               (seq 0 (List.length r_expressions))
               (mkState (Dir top) out) =
  let '(r, l', o) := rename_step (top_path d) n l in
  (r, mkState (Dir (upsert d (Dir l') top)) (out ++ o)%list).
Proof.
  intros Vd Vn Hd. rewrite pattern_loop_find. unfold rename_step, first_match.
  cbn [de_name de_path].
  destruct (find _ _) as [i|].
  - rewrite path_join_child by assumption.
    change (top_path d ++ "/" ++ nth i out_names "" ++ ".png")
      with (child_path d (canon i)).
    unfold bind, os_rename, fs_update, print. cbn [fs stdout].
    rewrite !resolve_child by auto using canon_valid.
    rewrite (rename_tree_child _ _ _ _ _ Hd).
    destruct (rename_entries n (canon i) l) as [l'|e]; cbn.
    + reflexivity.
    + now rewrite (upsert_lookup_id _ _ _ Hd), app_nil_r.
  - unfold ret. now rewrite (upsert_lookup_id _ _ _ Hd), app_nil_r.
Qed.

(** The inner loop over a listing taken earlier. *)
Lemma inner_loop_rename_all (d : string) (b : bool) (snap : entries) :
  valid_name d = true ->
  Forall (fun n => valid_name n = true) (names snap) ->
  forall (top l : entries) (out : list line),
  lookup d top = Some (Dir l) ->
  for_each (scan (top_path d) snap)
    (fun e => pattern_loop (mkDirEntry d (top_path d) b) e
                (seq 0 (List.length r_expressions)))
    (mkState (Dir top) out) =
  let '(r, l', o) := rename_all (top_path d) (names snap) l in
  (r, mkState (Dir (upsert d (Dir l') top)) (out ++ o)%list).
Proof.
  intros Vd. induction snap as [|[n nd] snap IH]; intros Vs top l out Hd.
  - cbn. now rewrite (upsert_lookup_id _ _ _ Hd), app_nil_r.
  - cbn [names map fst] in Vs. inversion Vs as [|? ? Vn Vs']; subst.
    cbn [scan map fst snd for_each names rename_all]. unfold bind at 1.
    rewrite (pattern_loop_rename_step _ _ _ _ _ _ _ Vd Vn Hd).
    destruct (rename_step (top_path d) n l) as [[[[]|e] l1] o1].
    + fold (scan (top_path d) snap).
      rewrite (IH Vs' _ l1 _ (lookup_upsert_same _ _ _)).
      fold (names snap).
      destruct (rename_all (top_path d) (names snap) l1) as [[r l2] o2].
      now rewrite upsert_upsert, <- app_assoc.
    + reflexivity.
Qed.

(** The outer loop, from any point of the top-level listing on. *)
Lemma outer_loop_rename_tops (rest : entries) :
  forall (pre : entries) (out : list line),
  wf_entries (pre ++ rest)%list = true ->
  Forall (fun kv => wf (snd kv) = true) rest ->
  for_each (scan "." rest)
    (fun entry =>
       if de_is_dir entry then
         inner <- os_scandir (de_path entry) ;;
         for_each inner (fun e =>
           pattern_loop entry e (seq 0 (List.length r_expressions)))
       else ret tt)
    (mkState (Dir (pre ++ rest)) out) =
  let '(r, rest', o) := rename_tops rest in
  (r, mkState (Dir (pre ++ rest')) (out ++ o)%list).
Proof.
  induction rest as [|[d nd] rest IH]; intros pre out We Wc.
  - cbn. now rewrite !app_nil_r.
  - pose proof We as We0.
    apply wf_entries_inv in We as [Vall ND].
    unfold names in Vall, ND. rewrite map_app in Vall, ND. cbn in Vall, ND.
    apply Forall_app in Vall as [_ Vd]. inversion Vd as [|? ? Vd1 _]; subst.
    apply NoDup_remove_2 in ND.
    assert (Hpre : ~ In d (names pre))
      by (intros H; apply ND, in_or_app; now left).
    inversion Wc as [|? ? Wnd Wrest]; subst. cbn [snd] in Wnd.
    assert (Wnext : forall x,
               wf_entries ((pre ++ [(d, x)]) ++ rest)%list = true).
    { intros x. rewrite <- app_assoc. cbn [app].
      unfold wf_entries, names in *. rewrite map_app in *. exact We0. }
    cbn [scan map fst snd for_each rename_tops]. unfold bind at 1.
    rewrite path_join_top.
    destruct nd as [c|l]; cbn [is_dir de_is_dir].
    + unfold ret at 1.
      specialize (IH (pre ++ [(d, File c)])%list out (Wnext _) Wrest).
      rewrite <- app_assoc in IH. cbn [app] in IH.
      fold (scan "." rest). rewrite IH.
      destruct (rename_tops rest) as [[r rest'] o].
      now rewrite <- app_assoc.
    + cbn [de_path]. unfold bind at 1, os_scandir at 1. cbn [fs].
      rewrite (resolve_top _ Vd1). cbn [get].
      rewrite (NoDup_lookup_app _ _ _ _ Hpre).
      apply wf_Dir in Wnd as [Wl _]. apply wf_entries_inv in Wl as [Vl _].
      rewrite (inner_loop_rename_all d true l Vd1 Vl _ _ _
                 (NoDup_lookup_app _ _ _ _ Hpre)).
      destruct (rename_all (top_path d) (names l) l) as [[[[]|e] l'] o1].
      * rewrite (upsert_app _ _ _ _ _ Hpre).
        specialize (IH (pre ++ [(d, Dir l')])%list (out ++ o1)%list
                       (Wnext _) Wrest).
        rewrite <- app_assoc in IH. cbn [app] in IH.
        fold (scan "." rest). rewrite IH.
        destruct (rename_tops rest) as [[r rest'] o].
        now rewrite <- !app_assoc.
      * now rewrite (upsert_app _ _ _ _ _ Hpre).
Qed.

(** The script, started in a well-formed working directory, does what
    [rename_tops] says. *)
Lemma format_directories_rename_tops (top : entries) :
  wf (Dir top) = true ->
  format_directories (boot (Dir top)) =
  let '(r, top', o) := rename_tops top in (r, mkState (Dir top') o).
Proof.
  intros W. apply wf_Dir in W as [We Wc].
  unfold format_directories, boot, bind, os_scandir. cbn [fs resolve get].
  change (resolve ".") with (@nil string). cbn [get].
  exact (outer_loop_rename_tops top [] [] We Wc).
Qed.

(* ================================================================== *)
(** * The pattern table *)

Lemma first_match_lt (n : string) (i : nat) :
  first_match n = Some i -> i < List.length r_expressions.
Proof.
  unfold first_match. intros H. apply find_some in H as [H _].
  apply in_seq in H. lia.
Qed.

Lemma first_match_hit (n : string) (i : nat) :
  first_match n = Some i -> re_search (nth i r_expressions "") n = true.
Proof.
  unfold first_match. intros H. now apply find_some in H as [_ H].
Qed.

(** A canonical name matches its own pattern first. *)
Lemma first_match_canon (i : nat) :
  i < List.length r_expressions -> first_match (canon i) = Some i.
Proof.
  intros H. destruct i as [|[|[|i]]]; try reflexivity.
  cbn in H. lia.
Qed.

Lemma canon_inj (i j : nat) :
  i < List.length r_expressions -> j < List.length r_expressions ->
  canon i = canon j -> i = j.
Proof.
  intros Hi Hj E. apply first_match_canon in Hi, Hj.
  rewrite E in Hi. congruence.
Qed.

(** A matching name is either the canonical name of its pattern or no
    canonical name at all. *)
Lemma matched_not_canon (n : string) (i j : nat) :
  first_match n = Some i -> n <> canon i ->
  j < List.length r_expressions -> n <> canon j.
Proof.
  intros Hn Hne Hj E. subst n.
  rewrite (first_match_canon _ Hj) in Hn. congruence.
Qed.

(** Names are matched as the text Python reads from their bytes: the
    two bytes of a long s are one character, and [re.IGNORECASE] takes it
    for an s of the pattern.  Bytes that are no UTF-8 match nothing. *)
Lemma fsdecode_long_s : fsdecode long_s = [383%N].
Proof. reflexivity. Qed.

Lemma first_match_long_s :
  first_match ("roughne" ++ long_s ++ "s.png") = Some 2 /\
  first_match ("Ba" ++ long_s ++ "e_Color_normal.png") = Some 0 /\
  first_match ("roughne" ++ String "191"%char "s.png") = None.
Proof. repeat split; vm_compute; reflexivity. Qed.

Lemma format_directories_long_s :
  let run := format_directories (boot (Dir sample_long_s)) in
  fst run = Ok tt /\
  get ["stone"; "roughness.png"] (fs (snd run)) = Some (File (text "rough")) /\
  get ["stone"; "albedo.png"] (fs (snd run)) = Some (File (text "colour")) /\
  stdout (snd run)
  = [Moved ("./stone/roughne" ++ long_s ++ "s.png") "./stone/roughness.png";
     Moved ("./stone/Ba" ++ long_s ++ "e_Color_normal.png")
           "./stone/albedo.png"].
Proof. repeat split; vm_compute; reflexivity. Qed.

(* ================================================================== *)
(** * One rename inside a directory *)

Lemma NoDup_In_lookup (k : string) (v : node) (l : entries) :
  NoDup (names l) -> In (k, v) l -> lookup k l = Some v.
Proof.
  induction l as [|[k' v'] l IH]; simpl; [tauto|].
  intros ND [E|H].
  - injection E as -> ->. now rewrite String.eqb_refl.
  - inversion ND; subst. destruct (String.eqb k k') eqn:E.
    + apply String.eqb_eq in E; subst k'.
      exfalso. apply H2. change k with (fst (k, v)). now apply in_map.
    + auto.
Qed.

Lemma rename_entries_inv (a b : string) (l l' : entries) :
  rename_entries a b l = Ok l' ->
  exists nd, lookup a l = Some nd /\
    ((a = b /\ l' = l) \/
     (a <> b /\ replace_check nd (lookup b l) = Ok tt /\
      l' = upsert b nd (delete a l))).
Proof.
  unfold rename_entries. destruct (lookup a l) as [nd|]; [|discriminate].
  intros H. exists nd. split; auto.
  destruct (String.eqb a b) eqn:E.
  - apply String.eqb_eq in E. injection H as <-. now left.
  - apply String.eqb_neq in E.
    destruct (replace_check nd (lookup b l)) as [[]|]; [|discriminate].
    injection H as <-. right. auto.
Qed.

(** Names other than the two involved keep what they hold. *)
Lemma rename_entries_other (a b k : string) (l l' : entries) :
  rename_entries a b l = Ok l' -> k <> a -> k <> b ->
  lookup k l' = lookup k l.
Proof.
  intros H Ha Hb. apply rename_entries_inv in H as (nd & _ & [[_ ->]|(_ & _ & ->)]).
  - reflexivity.
  - now rewrite lookup_upsert_other, lookup_delete_other.
Qed.

(** The destination holds what the source held. *)
Lemma rename_entries_dst (a b : string) (l l' : entries) (nd : node) :
  rename_entries a b l = Ok l' -> lookup a l = Some nd ->
  lookup b l' = Some nd.
Proof.
  intros H Ha. apply rename_entries_inv in H as (nd' & Ha' & [[<- ->]|(_ & _ & ->)]).
  - exact Ha.
  - rewrite lookup_upsert_same. congruence.
Qed.

(** The source name is free afterwards. *)
Lemma rename_entries_src (a b : string) (l l' : entries) :
  rename_entries a b l = Ok l' -> a <> b -> lookup a l' = None.
Proof.
  intros H Hab. apply rename_entries_inv in H as (nd' & Ha' & [[E _]|(_ & _ & ->)]).
  - contradiction.
  - rewrite lookup_upsert_other by assumption. apply lookup_delete_same.
Qed.

Lemma rename_entries_wf (a b : string) (l l' : entries) :
  rename_entries a b l = Ok l' -> valid_name b = true ->
  wf_entries l = true -> wf_entries l' = true.
Proof.
  intros H Vb W. apply rename_entries_inv in H as (nd' & Ha' & [[_ ->]|(_ & _ & ->)]);
    [assumption|].
  apply wf_entries_inv in W as [V ND]. apply wf_entries_inv. split.
  - rewrite Forall_forall in *. intros x Hx.
    apply names_upsert in Hx as [Hx| ->]; [|assumption].
    apply names_delete in Hx as [Hx _]. auto.
  - apply NoDup_names_upsert, NoDup_names_delete, ND.
Qed.

(* ================================================================== *)
(** * One directory *)

Lemma rename_all_cons (p n : string) (snap : list string) (l l' : entries)
      (r : result unit) (o : list line) :
  rename_all p (n :: snap) l = (r, l', o) ->
  (first_match n = None /\ rename_all p snap l = (r, l', o))
  \/ (exists i l1 o2,
        first_match n = Some i /\ rename_entries n (canon i) l = Ok l1 /\
        rename_all p snap l1 = (r, l', o2) /\
        o = Moved (path_join p n) (p ++ "/" ++ canon i) :: o2)
  \/ (exists i e,
        first_match n = Some i /\ rename_entries n (canon i) l = Raise e /\
        r = Raise e /\ l' = l /\ o = []).
Proof.
  cbn [rename_all]. unfold rename_step.
  destruct (first_match n) as [i|].
  - destruct (rename_entries n (canon i) l) as [l1|e] eqn:Er.
    + destruct (rename_all p snap l1) as [[r2 l2] o2] eqn:E.
      intros [= <- <- <-]. right. left. exists i, l1, o2. repeat split; auto.
    + intros [= <- <- <-]. right. right. exists i, e. repeat split; auto.
  - destruct (rename_all p snap l) as [[r2 l2] o2] eqn:E.
    intros [= <- <- <-]. left. auto.
Qed.

Lemma rename_all_app (p : string) (s1 s2 : list string) :
  forall (l : entries),
  rename_all p (s1 ++ s2)%list l =
  match rename_all p s1 l with
  | (Ok _, l1, o1) =>
      let '(r, l2, o2) := rename_all p s2 l1 in (r, l2, (o1 ++ o2)%list)
  | (Raise e, l1, o1) => (Raise e, l1, o1)
  end.
Proof.
  induction s1 as [|n s1 IH]; intros l.
  - cbn. now destruct (rename_all p s2 l) as [[r l2] o2].
  - cbn [app rename_all].
    destruct (rename_step p n l) as [[[[]|e] l1] o1]; [|reflexivity].
    rewrite IH. destruct (rename_all p s1 l1) as [[[[]|e] l2] o2]; [|reflexivity].
    destruct (rename_all p s2 l2) as [[r l3] o3]. now rewrite app_assoc.
Qed.

(** Every line printed for a directory names a listed entry that matches
    and the canonical path of its pattern. *)
Lemma rename_all_lines (p : string) (snap : list string) :
  forall (l l' : entries) (r : result unit) (o : list line) (ln : line),
  rename_all p snap l = (r, l', o) -> In ln o ->
  exists n i, In n snap /\ first_match n = Some i /\
              ln = Moved (path_join p n) (p ++ "/" ++ canon i).
Proof.
  induction snap as [|n snap IH]; intros l l' r o ln H Hln.
  - cbn in H. injection H as <- <- <-. destruct Hln.
  - apply rename_all_cons in H
      as [[_ H]|[(i & l1 & o2 & Hm & _ & H & ->)|(i & e & _ & _ & _ & _ & ->)]].
    + destruct (IH _ _ _ _ _ H Hln) as (n' & i & Hn' & Hm & E).
      exists n', i. simpl. auto.
    + destruct Hln as [<-|Hln].
      * exists n, i. simpl. auto.
      * destruct (IH _ _ _ _ _ H Hln) as (n' & j & Hn' & Hm' & E).
        exists n', j. simpl. auto.
    + destruct Hln.
Qed.

(** A name that no listed entry is moved from or onto keeps what it
    holds; an entry already bearing its canonical name moves nothing. *)
Lemma rename_all_frame (p : string) (snap : list string) (k : string) :
  forall (l l' : entries) (r : result unit) (o : list line),
  rename_all p snap l = (r, l', o) ->
  (forall n i, In n snap -> first_match n = Some i -> n <> canon i ->
               k <> n /\ k <> canon i) ->
  lookup k l' = lookup k l.
Proof.
  induction snap as [|n snap IH]; intros l l' r o H Hk.
  - cbn in H. now injection H as <- <- <-.
  - assert (Hk' : forall n' i, In n' snap -> first_match n' = Some i ->
                               n' <> canon i -> k <> n' /\ k <> canon i)
      by (intros; apply Hk; simpl; auto).
    apply rename_all_cons in H
      as [[_ H]|[(i & l1 & o2 & Hm & Hr & H & ->)|(i & e & _ & _ & _ & -> & _)]].
    + eauto.
    + rewrite (IH _ _ _ _ H Hk').
      destruct (string_dec n (canon i)) as [E|E].
      * apply rename_entries_inv in Hr as (nd & _ & [[_ ->]|(N & _)]);
          [reflexivity | contradiction].
      * destruct (Hk n i (or_introl eq_refl) Hm E).
        eapply rename_entries_other; eauto.
    + reflexivity.
Qed.

(** Whatever a name holds in the end was in the directory from the start,
    under that name or under a name whose pattern it stands for. *)
Lemma rename_all_origin (p : string) (snap : list string) :
  forall (l l' : entries) (r : result unit) (o : list line) (k : string)
         (v : node),
  rename_all p snap l = (r, l', o) -> lookup k l' = Some v ->
  exists n, lookup n l = Some v /\
            (k = n \/ exists i, first_match n = Some i /\ k = canon i).
Proof.
  induction snap as [|n snap IH]; intros l l' r o k v H Hk.
  - cbn in H. injection H as <- <- <-. eauto.
  - apply rename_all_cons in H
      as [[_ H]|[(i & l1 & o2 & Hm & Hr & H & ->)|(i & e & _ & _ & _ & -> & _)]].
    + eauto.
    + destruct (IH _ _ _ _ _ _ H Hk) as (n1 & Hn1 & Hor).
      pose proof (first_match_lt _ _ Hm) as Hi.
      pose proof Hr as Hr0.
      apply rename_entries_inv in Hr as (nd & Hn & [[E ->]|(N & _ & El1)]);
        [eauto|].
      destruct (string_dec n1 (canon i)) as [->|N1].
      * rewrite (rename_entries_dst _ _ _ _ _ Hr0 Hn) in Hn1.
        injection Hn1 as ->. exists n. split; auto. right. exists i.
        split; auto.
        destruct Hor as [->|(j & Hj & ->)]; auto.
        rewrite (first_match_canon _ Hi) in Hj. congruence.
      * destruct (string_dec n1 n) as [->|N2].
        -- rewrite (rename_entries_src _ _ _ _ Hr0 N) in Hn1. discriminate.
        -- rewrite (rename_entries_other _ _ _ _ _ Hr0 N2 N1) in Hn1. eauto.
    + eauto.
Qed.

(** Valid, distinct names stay so. *)
Lemma rename_all_wf (p : string) (snap : list string) :
  forall (l l' : entries) (r : result unit) (o : list line),
  rename_all p snap l = (r, l', o) ->
  wf_entries l = true -> wf_entries l' = true.
Proof.
  induction snap as [|n snap IH]; intros l l' r o H W.
  - cbn in H. now injection H as <- <- <-.
  - apply rename_all_cons in H
      as [[_ H]|[(i & l1 & o2 & Hm & Hr & H & ->)|(i & e & _ & _ & _ & -> & _)]].
    + eauto.
    + eapply IH; eauto. eapply rename_entries_wf; eauto using canon_valid.
    + assumption.
Qed.

(** A canonical name that is taken stays taken: nothing is ever moved
    away from it. *)
Lemma rename_all_kept (p : string) (snap : list string) (k : string) :
  forall (v : node) (l l' : entries) (r : result unit) (o : list line),
  rename_all p snap l = (r, l', o) ->
  lookup k l = Some v ->
  (exists j, j < List.length r_expressions /\ k = canon j) ->
  exists v', lookup k l' = Some v'.
Proof.
  induction snap as [|n snap IH]; intros v l l' r o H Hk Hcan.
  - cbn in H. injection H as <- <- <-. eauto.
  - apply rename_all_cons in H
      as [[_ H]|[(i & l1 & o2 & Hm & Hr & H & ->)|(i & e & _ & _ & _ & -> & _)]].
    + eauto.
    + apply rename_entries_inv in Hr as (nd & Hn & [[E ->]|(N & _ & ->)]);
        [eauto|].
      destruct (string_dec k (canon i)) as [->|Nk].
      * eapply IH; eauto. apply lookup_upsert_same.
      * eapply IH; eauto.
        rewrite lookup_upsert_other, lookup_delete_other; eauto.
        intros ->. destruct Hcan as (j & Hj & ->).
        rewrite (first_match_canon _ Hj) in Hm. congruence.
    + eauto.
Qed.

(** A listed entry that matches and does not bear its canonical name yet
    is gone from its old name when the directory has been gone through,
    and its move has been printed; if no later entry moves onto the same
    canonical name, that name holds what the entry held. *)
Lemma rename_all_last (p : string) (s1 s2 : list string) (n : string)
      (i : nat) (nd : node) (l l' : entries) (o : list line) :
  rename_all p (s1 ++ n :: s2)%list l = (Ok tt, l', o) ->
  NoDup (s1 ++ n :: s2)%list ->
  lookup n l = Some nd ->
  first_match n = Some i -> n <> canon i ->
  lookup n l' = None /\
  In (Moved (path_join p n) (p ++ "/" ++ canon i)) o /\
  (exists v, lookup (canon i) l' = Some v) /\
  ((forall n', In n' s2 -> first_match n' = Some i -> n' = canon i) ->
   lookup (canon i) l' = Some nd).
Proof.
  intros H ND Hn Hm Hne.
  pose proof (first_match_lt _ _ Hm) as Hi.
  assert (Hnc : forall j n' , first_match n' = Some j -> n <> canon j)
    by (intros j n' Hj; eapply matched_not_canon; eauto using first_match_lt).
  apply NoDup_remove_2 in ND.
  rewrite rename_all_app in H.
  destruct (rename_all p s1 l) as [[[[]|e] l1] o1] eqn:E1; [|discriminate].
  destruct (rename_all p (n :: s2) l1) as [[r2 l2] o2] eqn:E2.
  injection H as -> -> <-.
  assert (Hn1 : lookup n l1 = Some nd).
  { rewrite (rename_all_frame _ _ _ _ _ _ _ E1); auto.
    intros n' j Hin Hj _. split; eauto.
    intros ->. apply ND, in_or_app. now left. }
  apply rename_all_cons in E2
    as [[C _]|[(i' & l3 & o3 & Hm' & Hr & E3 & ->)|(i' & e & _ & _ & C & _)]];
    [congruence | | discriminate].
  assert (i' = i) by congruence. subst i'.
  pose proof (rename_entries_dst _ _ _ _ _ Hr Hn1) as Hdst.
  pose proof (rename_entries_src _ _ _ _ Hr Hne) as Hsrc.
  split; [|split; [|split]].
  - rewrite (rename_all_frame _ _ _ _ _ _ _ E3); auto.
    intros n' j Hin Hj _. split; eauto.
    intros ->. apply ND, in_or_app. now right.
  - apply in_or_app. right. now left.
  - eapply rename_all_kept; eauto.
  - intros Hlast.
    rewrite (rename_all_frame _ _ _ _ _ _ _ E3); auto.
    intros n' j Hin Hj Hne'.
    pose proof (first_match_lt _ _ Hj) as Hjlt.
    assert (j <> i) by (intros ->; apply Hne'; auto).
    split.
    + intros <-. rewrite (first_match_canon _ Hi) in Hj. congruence.
    + intros E. apply canon_inj in E; auto.
Qed.

(* ================================================================== *)
(** * The working directory *)

Lemma rename_tops_names (top : entries) :
  forall (r : result unit) (top' : entries) (o : list line),
  rename_tops top = (r, top', o) -> names top' = names top.
Proof.
  induction top as [|[d [c|l]] rest IH]; intros r top' o H; cbn in H.
  - now injection H as <- <- <-.
  - destruct (rename_tops rest) as [[r1 rest'] o1].
    injection H as <- <- <-. cbn. f_equal. eauto.
  - destruct (rename_all _ _ l) as [[[[]|e] l'] o1].
    + destruct (rename_tops rest) as [[r1 rest'] o2].
      injection H as <- <- <-. cbn. f_equal. eauto.
    + now injection H as <- <- <-.
Qed.

(** A file of the working directory is still there, as it was. *)
Lemma rename_tops_file (top : entries) (n : string) (c : data) :
  forall (r : result unit) (top' : entries) (o : list line),
  rename_tops top = (r, top', o) ->
  lookup n top = Some (File c) -> lookup n top' = Some (File c).
Proof.
  induction top as [|[d nd] rest IH]; intros r top' o H Hn; [discriminate|].
  cbn [lookup] in Hn.
  destruct nd as [c'|l]; cbn in H.
  - destruct (rename_tops rest) as [[r1 rest'] o1].
    injection H as <- <- <-. cbn [lookup].
    destruct (String.eqb n d); eauto.
  - destruct (rename_all _ _ l) as [[[[]|e] l'] o1].
    + destruct (rename_tops rest) as [[r1 rest'] o2].
      injection H as <- <- <-. cbn [lookup].
      destruct (String.eqb n d); [discriminate | eauto].
    + injection H as <- <- <-. cbn [lookup].
      destruct (String.eqb n d); [discriminate | eauto].
Qed.

(** A directory of the working directory has been gone through, or has
    not been reached because an exception ended the run before. *)
Lemma rename_tops_dir (top : entries) (d : string) (l : entries) :
  forall (r : result unit) (top' : entries) (o : list line),
  rename_tops top = (r, top', o) ->
  lookup d top = Some (Dir l) ->
  exists l',
    lookup d top' = Some (Dir l') /\
    ((exists r1 o1,
        rename_all (top_path d) (names l) l = (r1, l', o1) /\
        (forall ln, In ln o1 -> In ln o) /\
        (r = Ok tt -> r1 = Ok tt))
     \/ (l' = l /\ r <> Ok tt)).
Proof.
  induction top as [|[d0 nd] rest IH]; intros r top' o H Hd; [discriminate|].
  cbn [lookup] in Hd.
  destruct nd as [c|l0]; cbn [rename_tops] in H.
  - destruct (rename_tops rest) as [[r1 rest'] o1] eqn:E.
    injection H as <- <- <-. cbn [lookup].
    destruct (String.eqb d d0); [discriminate | eauto].
  - rewrite path_join_top in H.
    destruct (rename_all (top_path d0) (names l0) l0) as [[r0 l0'] o0] eqn:E0.
    destruct (String.eqb d d0) eqn:Ed.
    + apply String.eqb_eq in Ed. subst d0. injection Hd as ->.
      exists l0'. destruct r0 as [[]|e].
      * destruct (rename_tops rest) as [[r1 rest'] o1].
        injection H as <- <- <-. cbn [lookup]. rewrite String.eqb_refl.
        split; auto. left. exists (Ok tt), o0.
        repeat split; auto. intros ln Hln. apply in_or_app. now left.
      * injection H as <- <- <-. cbn [lookup]. rewrite String.eqb_refl.
        split; auto. left. exists (Raise e), o0.
        repeat split; auto.
    + destruct r0 as [[]|e].
      * destruct (rename_tops rest) as [[r1 rest'] o1] eqn:E.
        injection H as <- <- <-. cbn [lookup]. rewrite Ed.
        destruct (IH _ _ _ eq_refl Hd) as (l' & Hl' & Hor).
        exists l'. split; auto.
        destruct Hor as [(r2 & o2 & H1 & H2 & H3)|H1]; [left|now right].
        exists r2, o2. repeat split; auto.
        intros ln Hln. apply in_or_app. right. auto.
      * injection H as <- <- <-. cbn [lookup]. rewrite Ed.
        exists l. split; auto. right. split; auto. discriminate.
Qed.

(** A printed line comes from going through one of the directories. *)
Lemma rename_tops_lines (top : entries) :
  forall (r : result unit) (top' : entries) (o : list line) (ln : line),
  rename_tops top = (r, top', o) -> In ln o ->
  exists d l r1 l1 o1,
    In (d, Dir l) top /\
    rename_all (top_path d) (names l) l = (r1, l1, o1) /\ In ln o1.
Proof.
  induction top as [|[d0 nd] rest IH]; intros r top' o ln H Hln.
  - cbn in H. injection H as <- <- <-. destruct Hln.
  - destruct nd as [c|l0]; cbn [rename_tops] in H.
    + destruct (rename_tops rest) as [[r1 rest'] o1] eqn:E.
      injection H as <- <- <-.
      destruct (IH _ _ _ _ eq_refl Hln) as (d & l & r2 & l2 & o2 & H1 & H2).
      exists d, l, r2, l2, o2. split; [now right | exact H2].
    + rewrite path_join_top in H.
      destruct (rename_all (top_path d0) (names l0) l0) as [[r0 l0'] o0] eqn:E0.
      assert (Hhere : In ln o0 ->
                exists d l r1 l1 o1, In (d, Dir l) ((d0, Dir l0) :: rest) /\
                  rename_all (top_path d) (names l) l = (r1, l1, o1) /\
                  In ln o1).
      { intros Hin. exists d0, l0, r0, l0', o0. split; [now left | auto]. }
      destruct r0 as [[]|e].
      * destruct (rename_tops rest) as [[r1 rest'] o1] eqn:E.
        injection H as <- <- <-. apply in_app_or in Hln as [Hln|Hln]; auto.
        destruct (IH _ _ _ _ eq_refl Hln) as (d & l & r2 & l2 & o2 & H1 & H2).
        exists d, l, r2, l2, o2. split; [now right | exact H2].
      * injection H as <- <- <-. auto.
Qed.

Lemma format_directories_inv (top : entries) (r : result unit) (st' : state) :
  wf (Dir top) = true ->
  format_directories (boot (Dir top)) = (r, st') ->
  exists top', rename_tops top = (r, top', stdout st') /\ fs st' = Dir top'.
Proof.
  intros W H. rewrite (format_directories_rename_tops _ W) in H.
  destruct (rename_tops top) as [[r1 top'] o].
  injection H as <- <-. exists top'. auto.
Qed.

Lemma wf_child (top l : entries) (d : string) :
  wf (Dir top) = true -> In (d, Dir l) top ->
  valid_name d = true /\ wf_entries l = true /\
  lookup d top = Some (Dir l).
Proof.
  intros W Hin. apply wf_Dir in W as [We Wc].
  apply wf_entries_inv in We as [V ND].
  rewrite Forall_forall in V, Wc. split; [|split].
  - apply V. change d with (fst (d, Dir l)). now apply in_map.
  - specialize (Wc _ Hin). cbn in Wc. now apply wf_Dir in Wc as [Wl _].
  - now apply NoDup_In_lookup.
Qed.

(** Each printed line reports the move of an entry found directly inside
    a directory of the working directory, onto the canonical name of the
    first pattern its name matches. *)
Lemma format_directories_lines (top : entries) (r : result unit)
      (st' : state) (ln : line) :
  wf (Dir top) = true ->
  format_directories (boot (Dir top)) = (r, st') ->
  In ln (stdout st') ->
  exists d l n i,
    lookup d top = Some (Dir l) /\ valid_name d = true /\
    In n (names l) /\ valid_name n = true /\ first_match n = Some i /\
    ln = Moved (child_path d n) (child_path d (canon i)).
Proof.
  intros W H Hln.
  destruct (format_directories_inv _ _ _ W H) as (top' & Ht & _).
  destruct (rename_tops_lines _ _ _ _ _ Ht Hln)
    as (d & l & r1 & l1 & o1 & Hin & Hall & Hln1).
  destruct (wf_child _ _ _ W Hin) as (Vd & Wl & Hd).
  destruct (rename_all_lines _ _ _ _ _ _ _ Hall Hln1) as (n & i & Hn & Hm & ->).
  apply wf_entries_inv in Wl as [Vl _]. rewrite Forall_forall in Vl.
  exists d, l, n, i. repeat split; auto.
  now rewrite path_join_child by assumption.
Qed.

(* ================================================================== *)
(** * Properties of the renamer *)

Lemma get_child (top l : entries) (d k : string) :
  lookup d top = Some (Dir l) -> get [d; k] (Dir top) = lookup k l.
Proof.
  intros H. cbn. rewrite H. now destruct (lookup k l).
Qed.

Lemma get_top (top : entries) (d : string) :
  get [d] (Dir top) = lookup d top.
Proof. cbn. now destruct (lookup d top). Qed.

Lemma find_first (f : nat -> bool) (n i : nat) :
  forall a, a <= i -> i < a + n -> f i = true ->
  (forall j, a <= j -> j < i -> f j = false) ->
  find f (seq a n) = Some i.
Proof.
  induction n as [|n IH]; intros a Ha Hi Hf Hlt; [lia|].
  cbn [seq find]. destruct (Nat.eq_dec a i) as [->|N].
  - now rewrite Hf.
  - rewrite (Hlt a) by lia. apply IH; try lia; auto.
    intros j Hj. apply Hlt. lia.
Qed.

Lemma find_all_false {A} (f : A -> bool) (l : list A) :
  (forall x, In x l -> f x = false) -> find f l = None.
Proof.
  induction l as [|x l IH]; intros H; cbn; auto.
  rewrite (H x) by now left. apply IH. intros y Hy. apply H. now right.
Qed.

Lemma no_hit_first_match (n : string) :
  (forall p, In p r_expressions -> re_search p n = false) ->
  first_match n = None.
Proof.
  intros H. apply find_all_false. intros i Hi. apply in_seq in Hi.
  apply H. apply nth_In. lia.
Qed.

Lemma walk_eqb_eq (p q : list string) : walk_eqb p q = true -> p = q.
Proof.
  unfold walk_eqb. revert q. induction p as [|a p IH]; intros [|b q]; cbn;
    try reflexivity; try (rewrite ?andb_false_r; discriminate).
  rewrite !andb_true_iff. intros [[E H1] [_ H2]].
  apply String.eqb_eq in E. subst b. f_equal. apply IH.
  now rewrite H1, H2.
Qed.

Lemma alter_cons (c c' : string) (p : list string)
      (f : option node -> result (option node)) (ents : entries) :
  alter (c :: c' :: p) f (Dir ents) =
  match lookup c ents with
  | None => Raise FileNotFoundError
  | Some ch =>
      match alter (c' :: p) f ch with
      | Ok ch' => Ok (Dir (upsert c ch' ents))
      | Raise e => Raise e
      end
  end.
Proof. reflexivity. Qed.

(** After a successful [alter] that writes [v], the walk leads to [v]. *)
Lemma get_alter_written (p : list string) (v : node)
      (f : option node -> result (option node)) :
  (forall old, f old = Ok (Some v)) ->
  forall n n', alter p f n = Ok n' -> get p n' = Some v.
Proof.
  intros Hf. induction p as [|c p IH]; intros n n' H.
  - destruct n; discriminate.
  - destruct n as [x|ents]; [discriminate|].
    destruct p as [|c' p].
    + cbn in H. rewrite Hf in H. injection H as <-.
      cbn. now rewrite lookup_upsert_same.
    + rewrite alter_cons in H.
      destruct (lookup c ents) as [ch|]; [|discriminate].
      destruct (alter (c' :: p) f ch) as [ch'|] eqn:E; [|discriminate].
      injection H as <-. cbn [get]. rewrite lookup_upsert_same. eauto.
Qed.

(** [os.rename] hands the node over as it is. *)
Lemma os_rename_moves_node (src dst : string) (s s' : state) (nd : node) :
  os_rename src dst s = (Ok tt, s') ->
  get (resolve src) (fs s) = Some nd ->
  get (resolve dst) (fs s') = Some nd.
Proof.
  unfold os_rename, fs_update, rename_tree. intros H Hsrc.
  rewrite Hsrc in H.
  destruct (walk_eqb (resolve src) (resolve dst)) eqn:E.
  - apply walk_eqb_eq in E. rewrite <- E.
    injection H as <-. exact Hsrc.
  - destruct (is_prefix (resolve src) (resolve dst)); [discriminate|].
    destruct (replace_check nd _); [|discriminate].
    destruct (alter (resolve src) _ (fs s)) as [root1|]; [|discriminate].
    destruct (alter (resolve dst) _ root1) as [root2|] eqn:E2; [|discriminate].
    injection H as <-. cbn [fs].
    eapply get_alter_written; [|exact E2]. reflexivity.
Qed.

(** What the run leaves in a directory of the working directory. *)
Lemma format_directories_dir (top l : entries) (d : string)
      (r : result unit) (st' : state) :
  wf (Dir top) = true ->
  format_directories (boot (Dir top)) = (r, st') ->
  lookup d top = Some (Dir l) ->
  exists top' l' r1 snap o1,
    fs st' = Dir top' /\ lookup d top' = Some (Dir l') /\
    rename_all (top_path d) snap l = (r1, l', o1) /\
    incl snap (names l) /\
    (forall ln, In ln o1 -> In ln (stdout st')) /\
    (r = Ok tt -> r1 = Ok tt /\ snap = names l).
Proof.
  intros W H Hd.
  destruct (format_directories_inv _ _ _ W H) as (top' & Ht & Hfs).
  destruct (rename_tops_dir _ _ _ _ _ _ Ht Hd)
    as (l' & Hl' & [(r1 & o1 & Hall & Hsub & Hok)|[-> Hr]]).
  - exists top', l', r1, (names l), o1.
    repeat split; auto using incl_refl.
  - exists top', l, (Ok tt), [], []. repeat split; auto; try contradiction.
    intros x [].
Qed.

(** An entry of a child directory that matches and does not bear its
    canonical name yet: what a run that came to its end made of it. *)
Lemma format_directories_moved (top l1 l2 : entries) (d n : string)
      (nd : node) (i : nat) (st' : state) :
  wf (Dir top) = true ->
  format_directories (boot (Dir top)) = (Ok tt, st') ->
  lookup d top = Some (Dir (l1 ++ (n, nd) :: l2)%list) ->
  first_match n = Some i -> n <> canon i ->
  exists top' l',
    fs st' = Dir top' /\ lookup d top' = Some (Dir l') /\
    wf_entries l' = true /\
    lookup n l' = None /\
    In (Moved (child_path d n) (child_path d (canon i))) (stdout st') /\
    (exists v, lookup (canon i) l' = Some v) /\
    ((forall n', In n' (names l2) -> first_match n' = Some i ->
                 n' = canon i) ->
     lookup (canon i) l' = Some nd).
Proof.
  intros W H Hd Hm Hne.
  destruct (wf_child _ _ _ W (lookup_In _ _ _ Hd)) as (Vd & Wl & _).
  destruct (format_directories_dir _ _ _ _ _ W H Hd)
    as (top' & l' & r1 & snap & o1 & Hfs & Hl' & Hall & _ & Hsub & Hok).
  destruct (Hok eq_refl) as [-> ->].
  pose proof (rename_all_wf _ _ _ _ _ _ Hall Wl) as Wl'.
  apply wf_entries_inv in Wl as [Vl ND].
  unfold names in Hall, ND. rewrite map_app in Hall, ND. cbn in Hall, ND.
  destruct (rename_all_last (top_path d) (map fst l1) (map fst l2) n i nd
              _ _ _ Hall ND) as (H1 & H2 & H3 & H4); auto.
  { apply NoDup_lookup_app. apply NoDup_remove_2 in ND.
    intros Hin. apply ND, in_or_app. now left. }
  exists top', l'. repeat split; auto.
  apply Hsub. rewrite path_join_child in H2 by assumption. exact H2.
Qed.

Lemma rename_tops_kind (top top' l' : entries) (d : string)
      (r : result unit) (o : list line) :
  rename_tops top = (r, top', o) -> lookup d top' = Some (Dir l') ->
  exists l, lookup d top = Some (Dir l).
Proof.
  intros H Hd.
  assert (Hin : In d (names top)).
  { rewrite <- (rename_tops_names _ _ _ _ H). apply lookup_names. congruence. }
  apply lookup_names in Hin.
  destruct (lookup d top) as [[c|l]|] eqn:E; [|eauto|congruence].
  rewrite (rename_tops_file _ _ _ _ _ _ H E) in Hd. discriminate.
Qed.

(** The inner loop on a listed entry that matches: the one rename inside
    the directory, and its line when the rename went through. *)
Lemma pattern_loop_on_match (top l : entries) (d n : string) (i : nat)
      (b b' : bool) (out : list line) :
  valid_name d = true -> valid_name n = true ->
  lookup d top = Some (Dir l) ->
  first_match n = Some i ->
  pattern_loop (mkDirEntry d (top_path d) b)
               (mkDirEntry n (path_join (top_path d) n) b')
               (seq 0 (List.length r_expressions))
               (mkState (Dir top) out) =
  match rename_entries n (canon i) l with
  | Ok l' =>
      (Ok tt,
       mkState (Dir (upsert d (Dir l') top))
               (out ++ [Moved (child_path d n) (child_path d (canon i))])%list)
  | Raise e => (Raise e, mkState (Dir top) out)
  end.
Proof.
  intros Vd Vn Hd Hm.
  rewrite (pattern_loop_rename_step _ _ _ _ _ _ _ Vd Vn Hd).
  unfold rename_step. rewrite Hm.
  destruct (rename_entries n (canon i) l) as [l'|e].
  - now rewrite path_join_child by assumption.
  - now rewrite (upsert_lookup_id _ _ _ Hd), app_nil_r.
Qed.

(** When the loop returns on a matching entry, the canonical name holds
    the node the entry held, the old name is free, and the move is
    printed. *)
Lemma pattern_loop_delivers (top l : entries) (d n : string) (nd : node)
      (i : nat) (b b' : bool) (out : list line) (st1 : state) :
  valid_name d = true -> valid_name n = true ->
  lookup d top = Some (Dir l) ->
  lookup n l = Some nd ->
  first_match n = Some i ->
  pattern_loop (mkDirEntry d (top_path d) b)
               (mkDirEntry n (path_join (top_path d) n) b')
               (seq 0 (List.length r_expressions))
               (mkState (Dir top) out) = (Ok tt, st1) ->
  get [d; canon i] (fs st1) = Some nd /\
  (n <> canon i -> get [d; n] (fs st1) = None) /\
  stdout st1
  = (out ++ [Moved (child_path d n) (child_path d (canon i))])%list.
Proof.
  intros Vd Vn Hd Hn Hm H.
  rewrite (pattern_loop_on_match _ _ _ _ _ _ _ _ Vd Vn Hd Hm) in H.
  destruct (rename_entries n (canon i) l) as [l'|e] eqn:Hr; [|discriminate].
  injection H as <-. cbn [fs stdout].
  rewrite !(get_child _ l') by apply lookup_upsert_same.
  repeat split.
  - exact (rename_entries_dst _ _ _ _ _ Hr Hn).
  - intros Hne. exact (rename_entries_src _ _ _ _ Hr Hne).
Qed.

(** A file moves onto its canonical name whatever file the name holds:
    the loop looks for nothing at the destination and returns. *)
Lemma pattern_loop_overwrites (top l : entries) (d n : string) (c : data)
      (i : nat) (b b' : bool) (out : list line) :
  valid_name d = true -> valid_name n = true ->
  lookup d top = Some (Dir l) ->
  lookup n l = Some (File c) ->
  first_match n = Some i ->
  (forall sub, lookup (canon i) l <> Some (Dir sub)) ->
  exists st1,
    pattern_loop (mkDirEntry d (top_path d) b)
                 (mkDirEntry n (path_join (top_path d) n) b')
                 (seq 0 (List.length r_expressions))
                 (mkState (Dir top) out) = (Ok tt, st1) /\
    get [d; canon i] (fs st1) = Some (File c) /\
    (n <> canon i -> get [d; n] (fs st1) = None) /\
    stdout st1
    = (out ++ [Moved (child_path d n) (child_path d (canon i))])%list.
Proof.
  intros Vd Vn Hd Hn Hm Hfree.
  assert (Hok : exists l', rename_entries n (canon i) l = Ok l').
  { unfold rename_entries. rewrite Hn.
    destruct (String.eqb n (canon i)); [eauto|].
    destruct (lookup (canon i) l) as [[x|sub]|] eqn:E; cbn; eauto.
    exfalso. exact (Hfree _ eq_refl). }
  destruct Hok as (l' & Hr).
  pose proof (pattern_loop_on_match _ _ _ _ _ b b' out Vd Vn Hd Hm) as H.
  rewrite Hr in H. eexists. split; [exact H|].
  exact (pattern_loop_delivers _ _ _ _ _ _ _ _ _ _ Vd Vn Hd Hn Hm H).
Qed.

(** C5.  The patterns are tried in the order of the table, albedo or base
    colour first, then normal, then roughness, and the first one that hits
    decides: when pattern [i] hits the name and no earlier pattern does,
    the whole loop over the table is the one rename to the canonical name
    of pattern [i] and the one printed line, whatever the later patterns
    would say.  Letter case plays no part: an entry whose name reads the
    same without regard to case is resolved to the same canonical name.
    So a name that the albedo pattern hits goes to [albedo.png] whatever
    else it holds, a name that the normal pattern hits goes to
    [normal.png] unless the albedo pattern hits it, and a name that the
    roughness pattern hits goes to [roughness.png] unless one of the other
    two hits it. *)
Theorem first_hit_decides (entry e : DirEntry) (i : nat) :
  i < List.length r_expressions ->
  re_search (nth i r_expressions "") (de_name e) = true ->
  (forall j, j < i ->
             re_search (nth j r_expressions "") (de_name e) = false) ->
  pattern_loop entry e (seq 0 (List.length r_expressions)) =
    (os_rename (de_path e)
       (de_path entry ++ "/" ++ nth i out_names "" ++ ".png") ;;;
     print (Moved (de_path e)
              (de_path entry ++ "/" ++ nth i out_names "" ++ ".png"))) /\
  (forall e',
     casefold (de_name e') = casefold (de_name e) ->
     pattern_loop entry e' (seq 0 (List.length r_expressions)) =
       (os_rename (de_path e')
          (de_path entry ++ "/" ++ nth i out_names "" ++ ".png") ;;;
        print (Moved (de_path e')
                 (de_path entry ++ "/" ++ nth i out_names "" ++ ".png")))) /\
  (forall e',
     (re_search "albedo|Base_Color" (de_name e') = true ->
      pattern_loop entry e' (seq 0 (List.length r_expressions)) =
        (os_rename (de_path e') (de_path entry ++ "/albedo.png") ;;;
         print (Moved (de_path e') (de_path entry ++ "/albedo.png")))) /\
     (re_search "albedo|Base_Color" (de_name e') = false ->
      re_search "normal" (de_name e') = true ->
      pattern_loop entry e' (seq 0 (List.length r_expressions)) =
        (os_rename (de_path e') (de_path entry ++ "/normal.png") ;;;
         print (Moved (de_path e') (de_path entry ++ "/normal.png")))) /\
     (re_search "albedo|Base_Color" (de_name e') = false ->
      re_search "normal" (de_name e') = false ->
      re_search "roughness" (de_name e') = true ->
      pattern_loop entry e' (seq 0 (List.length r_expressions)) =
        (os_rename (de_path e') (de_path entry ++ "/roughness.png") ;;;
         print (Moved (de_path e') (de_path entry ++ "/roughness.png"))))).
Proof.
  intros Hi Hhit Hbefore.
  assert (Hsame : forall e',
            casefold (de_name e') = casefold (de_name e) ->
            pattern_loop entry e' (seq 0 (List.length r_expressions)) =
              (os_rename (de_path e')
                 (de_path entry ++ "/" ++ nth i out_names "" ++ ".png") ;;;
               print (Moved (de_path e')
                        (de_path entry ++ "/" ++ nth i out_names "" ++ ".png")))).
  { intros e' E. rewrite pattern_loop_find.
    assert (Hre : forall p, re_search p (de_name e') = re_search p (de_name e))
      by (intros p; unfold re_search; now rewrite E).
    rewrite (find_first _ _ i 0); auto; try lia.
    - now rewrite Hre.
    - intros j _ Hj. rewrite Hre. auto. }
  split; [apply Hsame; reflexivity | split; [exact Hsame|]].
  intros e'.
  assert (Hat : forall k,
            k < List.length r_expressions ->
            re_search (nth k r_expressions "") (de_name e') = true ->
            (forall j, j < k ->
                       re_search (nth j r_expressions "") (de_name e') = false) ->
            pattern_loop entry e' (seq 0 (List.length r_expressions)) =
              (os_rename (de_path e')
                 (de_path entry ++ "/" ++ nth k out_names "" ++ ".png") ;;;
               print (Moved (de_path e')
                        (de_path entry ++ "/" ++ nth k out_names "" ++ ".png")))).
  { intros k Hk Hh Hb. rewrite pattern_loop_find.
    rewrite (find_first _ _ k 0); auto; lia. }
  repeat split.
  - intros H0. apply (Hat 0); [cbn; lia | exact H0 | intros j Hj; lia].
  - intros H0 H1. apply (Hat 1); [cbn; lia | exact H1 |].
    intros [|j] Hj; [exact H0 | lia].
  - intros H0 H1 H2. apply (Hat 2); [cbn; lia | exact H2 |].
    intros [|[|j]] Hj; [exact H0 | exact H1 | lia].
Qed.

Lemma first_hit_decides_witness :
  pattern_loop (mkDirEntry "wood" "./wood" true)
    (mkDirEntry "Wood_NORMAL_albedo.TGA" "./wood/Wood_NORMAL_albedo.TGA" false)
    (seq 0 (List.length r_expressions)) =
    (os_rename "./wood/Wood_NORMAL_albedo.TGA" "./wood/albedo.png" ;;;
     print (Moved "./wood/Wood_NORMAL_albedo.TGA" "./wood/albedo.png")) /\
  pattern_loop (mkDirEntry "wood" "./wood" true)
    (mkDirEntry "wood_normal_ALBEDO.tga" "./wood/wood_normal_ALBEDO.tga" false)
    (seq 0 (List.length r_expressions)) =
    (os_rename "./wood/wood_normal_ALBEDO.tga" "./wood/albedo.png" ;;;
     print (Moved "./wood/wood_normal_ALBEDO.tga" "./wood/albedo.png")) /\
  pattern_loop (mkDirEntry "wood" "./wood" true)
    (mkDirEntry "Roughness_of_Normal.png" "./wood/Roughness_of_Normal.png"
                false)
    (seq 0 (List.length r_expressions)) =
    (os_rename "./wood/Roughness_of_Normal.png" "./wood/normal.png" ;;;
     print (Moved "./wood/Roughness_of_Normal.png" "./wood/normal.png")).
Proof.
  destruct (first_hit_decides
              (mkDirEntry "wood" "./wood" true)
              (mkDirEntry "Wood_NORMAL_albedo.TGA"
                          "./wood/Wood_NORMAL_albedo.TGA" false) 0)
    as (Hloop & Hcase & Horder).
  - simpl. lia.
  - vm_compute. reflexivity.
  - intros j Hj. lia.
  - split; [exact Hloop|]. split.
    + apply (Hcase (mkDirEntry "wood_normal_ALBEDO.tga"
                               "./wood/wood_normal_ALBEDO.tga" false)).
      vm_compute. reflexivity.
    + apply (proj1 (proj2 (Horder (mkDirEntry "Roughness_of_Normal.png"
                                     "./wood/Roughness_of_Normal.png"
                                     false)))).
      * vm_compute. reflexivity.
      * vm_compute. reflexivity.
Defined.

(** C7.  An entry of a child directory whose name no pattern of the table
    hits is found after the run under the same name, holding what it held,
    and no printed line mentions its path, whether the run came to its end
    or was cut short by an exception. *)
Theorem unmatched_entries_untouched (top l : entries) (d n : string)
        (nd : node) (r : result unit) (st' : state) :
  wf (Dir top) = true ->
  format_directories (boot (Dir top)) = (r, st') ->
  lookup d top = Some (Dir l) ->
  lookup n l = Some nd ->
  (forall p, In p r_expressions -> re_search p n = false) ->
  get [d; n] (fs st') = Some nd /\
  (forall src dst, In (Moved src dst) (stdout st') ->
                   src <> child_path d n /\ dst <> child_path d n).
Proof.
  intros W H Hd Hn Hno. apply no_hit_first_match in Hno.
  destruct (wf_child _ _ _ W (lookup_In _ _ _ Hd)) as (Vd & _ & _).
  apply valid_name_inv in Vd as (_ & _ & Sd).
  split.
  - destruct (format_directories_dir _ _ _ _ _ W H Hd)
      as (top' & l' & r1 & snap & o1 & Hfs & Hl' & Hall & _).
    rewrite Hfs, (get_child _ _ _ _ Hl').
    rewrite (rename_all_frame _ _ n _ _ _ _ Hall); auto.
    intros n' j _ Hj _. split.
    + intros ->. congruence.
    + intros ->. rewrite (first_match_canon _ (first_match_lt _ _ Hj)) in Hno.
      discriminate.
  - intros src dst Hln.
    destruct (format_directories_lines _ _ _ _ W H Hln)
      as (d' & l0 & n' & i & _ & Vd' & _ & _ & Hm & E).
    injection E as -> ->.
    apply valid_name_inv in Vd' as (_ & _ & Sd').
    split; intros E; apply child_path_inj in E as [_ E]; auto; subst.
    + congruence.
    + rewrite (first_match_canon _ (first_match_lt _ _ Hm)) in Hno.
      discriminate.
Qed.

Lemma unmatched_entries_untouched_witness :
  get ["wood"; "readme.txt"]
      (fs (snd (format_directories (boot (Dir sample_materials)))))
  = Some (File (text "hello")) /\
  (forall src dst,
     In (Moved src dst)
        (stdout (snd (format_directories (boot (Dir sample_materials))))) ->
     src <> child_path "wood" "readme.txt" /\
     dst <> child_path "wood" "readme.txt").
Proof.
  apply (unmatched_entries_untouched sample_materials
           [("Wood_Base_Color.jpg", File (text "first"));
            ("wood_ALBEDO_normal.tga", File (text "second"));
            ("wood_Normal.png", File (text "bumps"));
            ("readme.txt", File (text "hello"))]
           "wood" "readme.txt" (File (text "hello"))
           (fst (format_directories (boot (Dir sample_materials))))).
  - reflexivity.
  - apply surjective_pairing.
  - reflexivity.
  - reflexivity.
  - intros p [<-|[<-|[<-|[]]]]; reflexivity.
Defined.



(** C9.  Renaming changes names, never contents.  Each time the loop
    renames a file, the canonical name holds, right after, exactly the
    bytes the file had.  In a run that comes to its end, the file listed
    last among those that move onto a canonical name leaves its bytes
    there.  And whatever an entry of a child directory holds after a run,
    come to its end or not, was held before the run by an entry of the
    same directory, either under the same name or under a name whose
    first hit is the pattern of the canonical name it now bears. *)
Theorem renaming_keeps_contents (top : entries) (r : result unit)
        (st' : state) :
  wf (Dir top) = true ->
  format_directories (boot (Dir top)) = (r, st') ->
  (forall (now_top now_l : entries) (d n : string) (c : data) (i : nat)
          (out : list line) (b b' : bool) (st1 : state),
     wf (Dir now_top) = true ->
     lookup d now_top = Some (Dir now_l) ->
     lookup n now_l = Some (File c) ->
     first_match n = Some i ->
     pattern_loop (mkDirEntry d (top_path d) b)
                  (mkDirEntry n (path_join (top_path d) n) b')
                  (seq 0 (List.length r_expressions))
                  (mkState (Dir now_top) out) = (Ok tt, st1) ->
     get [d; canon i] (fs st1) = Some (File c)) /\
  (forall (d n : string) (l1 l2 : entries) (c : data) (i : nat),
     r = Ok tt ->
     lookup d top = Some (Dir (l1 ++ (n, File c) :: l2)%list) ->
     first_match n = Some i -> n <> canon i ->
     (forall n', In n' (names l2) -> first_match n' = Some i ->
                 n' = canon i) ->
     get [d; canon i] (fs st') = Some (File c)) /\
  (forall d k v,
     get [d; k] (fs st') = Some v ->
     exists n, get [d; n] (Dir top) = Some v /\
               (k = n \/ exists i, first_match n = Some i /\ k = canon i)).
Proof.
  intros W H. split; [|split].
  - intros now_top now_l d n c i out b b' st1 Wn Hdn Hnn Hm Hrun.
    destruct (wf_child _ _ _ Wn (lookup_In _ _ _ Hdn)) as (Vd & Wl & _).
    apply wf_entries_inv in Wl as [Vl _]. rewrite Forall_forall in Vl.
    assert (Vn : valid_name n = true)
      by (apply Vl, lookup_names; congruence).
    exact (proj1 (pattern_loop_delivers _ _ _ _ _ _ _ _ _ _
                    Vd Vn Hdn Hnn Hm Hrun)).
  - intros d n l1 l2 c i -> Hd Hm Hne Hlast.
    destruct (format_directories_moved _ _ _ _ _ _ _ _ W H Hd Hm Hne)
      as (top' & l' & Hfs & Hl' & _ & _ & _ & _ & Hc).
    rewrite Hfs, (get_child _ _ _ _ Hl'). auto.
  - intros d k v Hk.
    destruct (format_directories_inv _ _ _ W H) as (top' & Ht & Hfs).
    rewrite Hfs in Hk.
    destruct (lookup d top') as [[c|l']|] eqn:Hd';
      try (cbn in Hk; rewrite Hd' in Hk; discriminate).
    rewrite (get_child _ _ _ _ Hd') in Hk.
    destruct (rename_tops_kind _ _ _ _ _ _ Ht Hd') as (l & Hd).
    destruct (format_directories_dir _ _ _ _ _ W H Hd)
      as (top2 & l2 & r1 & snap & o1 & Hfs2 & Hl2 & Hall & _).
    rewrite Hfs in Hfs2. injection Hfs2 as <-.
    rewrite Hd' in Hl2. injection Hl2 as <-.
    destruct (rename_all_origin _ _ _ _ _ _ _ _ Hall Hk) as (n & Hn & Hor).
    exists n. rewrite (get_child _ _ _ _ Hd). auto.
Qed.

Lemma renaming_keeps_contents_witness :
  (forall (now_top now_l : entries) (d n : string) (c : data) (i : nat)
          (out : list line) (b b' : bool) (st1 : state),
     wf (Dir now_top) = true ->
     lookup d now_top = Some (Dir now_l) ->
     lookup n now_l = Some (File c) ->
     first_match n = Some i ->
     pattern_loop (mkDirEntry d (top_path d) b)
                  (mkDirEntry n (path_join (top_path d) n) b')
                  (seq 0 (List.length r_expressions))
                  (mkState (Dir now_top) out) = (Ok tt, st1) ->
     get [d; canon i] (fs st1) = Some (File c)) /\
  (forall (d n : string) (l1 l2 : entries) (c : data) (i : nat),
     fst (format_directories (boot (Dir sample_materials))) = Ok tt ->
     lookup d sample_materials = Some (Dir (l1 ++ (n, File c) :: l2)%list) ->
     first_match n = Some i -> n <> canon i ->
     (forall n', In n' (names l2) -> first_match n' = Some i ->
                 n' = canon i) ->
     get [d; canon i]
         (fs (snd (format_directories (boot (Dir sample_materials)))))
     = Some (File c)) /\
  (forall d k v,
     get [d; k] (fs (snd (format_directories (boot (Dir sample_materials)))))
     = Some v ->
     exists n, get [d; n] (Dir sample_materials) = Some v /\
               (k = n \/ exists i, first_match n = Some i /\ k = canon i)).
Proof.
  apply (renaming_keeps_contents sample_materials
           (fst (format_directories (boot (Dir sample_materials))))).
  - reflexivity.
  - apply surjective_pairing.
Defined.




(** C4, as the code has it.  A matched file is renamed inside its own
    directory onto the canonical name of its pattern whatever file that
    name holds: the loop looks for nothing at the destination, the rename
    goes through, the name then holds the bytes of the moved file and the
    move is printed.  In a run that comes to its end, every matched file
    that does not bear its canonical name yet is gone from its old name,
    its move is printed, and the directory lists the canonical name
    exactly once.  The canonical name ends with the content of the file
    listed last among those that move onto it; a file that bears the
    canonical name already does not count, renaming it onto itself
    changes nothing. *)
Theorem last_moved_file_wins (top l1 l2 : entries) (d n : string) (c : data)
        (i : nat) (st' : state) :
  wf (Dir top) = true ->
  format_directories (boot (Dir top)) = (Ok tt, st') ->
  lookup d top = Some (Dir (l1 ++ (n, File c) :: l2)%list) ->
  first_match n = Some i -> n <> canon i ->
  get [d; n] (fs st') = None /\
  In (Moved (child_path d n) (child_path d (canon i))) (stdout st') /\
  (exists l', get [d] (fs st') = Some (Dir l') /\
              count_occ string_dec (names l') (canon i) = 1) /\
  ((forall n', In n' (names l2) -> first_match n' = Some i ->
               n' = canon i) ->
   get [d; canon i] (fs st') = Some (File c)) /\
  (forall (now_top now_l : entries) (out : list line) (b b' : bool),
     wf (Dir now_top) = true ->
     lookup d now_top = Some (Dir now_l) ->
     lookup n now_l = Some (File c) ->
     (forall sub, lookup (canon i) now_l <> Some (Dir sub)) ->
     exists st1,
       pattern_loop (mkDirEntry d (top_path d) b)
                    (mkDirEntry n (path_join (top_path d) n) b')
                    (seq 0 (List.length r_expressions))
                    (mkState (Dir now_top) out) = (Ok tt, st1) /\
       get [d; canon i] (fs st1) = Some (File c) /\
       get [d; n] (fs st1) = None /\
       stdout st1
       = (out ++ [Moved (child_path d n) (child_path d (canon i))])%list).
Proof.
  intros W H Hd Hm Hne.
  destruct (format_directories_moved _ _ _ _ _ _ _ _ W H Hd Hm Hne)
    as (top' & l' & Hfs & Hl' & Wl' & Hn & Hln & (v & Hv) & Hc).
  rewrite Hfs, !(get_child _ _ _ _ Hl'), get_top.
  repeat split; auto.
  - exists l'. split; auto.
    apply wf_entries_inv in Wl' as [_ ND].
    apply NoDup_count_one; auto. apply lookup_names. congruence.
  - intros now_top now_l out b b' Wn Hdn Hnn Hfree.
    destruct (wf_child _ _ _ Wn (lookup_In _ _ _ Hdn)) as (Vd & Wl & _).
    apply wf_entries_inv in Wl as [Vl _]. rewrite Forall_forall in Vl.
    assert (Vn : valid_name n = true)
      by (apply Vl, lookup_names; congruence).
    destruct (pattern_loop_overwrites _ _ _ _ _ _ b b' out Vd Vn Hdn Hnn Hm
                Hfree) as (st1 & H1 & H2 & H3 & H4).
    exists st1. auto.
Qed.

Lemma last_moved_file_wins_witness :
  get ["wood"; "wood_ALBEDO_normal.tga"]
      (fs (snd (format_directories (boot (Dir sample_materials))))) = None /\
  In (Moved (child_path "wood" "wood_ALBEDO_normal.tga")
            (child_path "wood" (canon 0)))
     (stdout (snd (format_directories (boot (Dir sample_materials))))) /\
  (exists l',
     get ["wood"] (fs (snd (format_directories (boot (Dir sample_materials)))))
     = Some (Dir l') /\
     count_occ string_dec (names l') (canon 0) = 1) /\
  ((forall n', In n' (names [("wood_Normal.png", File (text "bumps"));
                             ("readme.txt", File (text "hello"))]) ->
               first_match n' = Some 0 -> n' = canon 0) ->
   get ["wood"; canon 0]
       (fs (snd (format_directories (boot (Dir sample_materials)))))
   = Some (File (text "second"))) /\
  (forall (now_top now_l : entries) (out : list line) (b b' : bool),
     wf (Dir now_top) = true ->
     lookup "wood" now_top = Some (Dir now_l) ->
     lookup "wood_ALBEDO_normal.tga" now_l = Some (File (text "second")) ->
     (forall sub, lookup (canon 0) now_l <> Some (Dir sub)) ->
     exists st1,
       pattern_loop (mkDirEntry "wood" (top_path "wood") b)
                    (mkDirEntry "wood_ALBEDO_normal.tga"
                       (path_join (top_path "wood") "wood_ALBEDO_normal.tga")
                       b')
                    (seq 0 (List.length r_expressions))
                    (mkState (Dir now_top) out) = (Ok tt, st1) /\
       get ["wood"; canon 0] (fs st1) = Some (File (text "second")) /\
       get ["wood"; "wood_ALBEDO_normal.tga"] (fs st1) = None /\
       stdout st1
       = (out ++ [Moved (child_path "wood" "wood_ALBEDO_normal.tga")
                        (child_path "wood" (canon 0))])%list).
Proof.
  apply (last_moved_file_wins sample_materials
           [("Wood_Base_Color.jpg", File (text "first"))]
           [("wood_Normal.png", File (text "bumps"));
            ("readme.txt", File (text "hello"))]
           "wood" "wood_ALBEDO_normal.tga" (text "second") 0).
  - reflexivity.
  - reflexivity.
  - reflexivity.
  - reflexivity.
  - vm_compute. discriminate.
Defined.

(** C4, as the specification words it, fails: in the sample the file
    listed last among the albedo candidates is [albedo.png] with content
    "old", and the canonical name ends with "new". *)
Lemma last_listed_wins_fails : ~ last_listed_wins sample_rerun.
Proof.
  intros H.
  specialize (H (fst (format_directories (boot (Dir sample_rerun))))
                (snd (format_directories (boot (Dir sample_rerun))))
                "wood" "albedo.png"
                [("new_albedo.jpg", File (text "new"))] [] (text "old") 0
                (surjective_pairing _) eq_refl eq_refl).
  assert (Hnone : forall n', In n' (names []) -> first_match n' <> Some 0)
    by (intros n' []).
  specialize (H Hnone). vm_compute in H. discriminate.
Qed.

(* ================================================================== *)
(** * More on listings *)

Lemma delete_absent (k : string) (l : entries) :
  lookup k l = None -> delete k l = l.
Proof.
  induction l as [|[k' v] l IH]; cbn; auto.
  destruct (String.eqb k k'); [discriminate|].
  intros H. now rewrite IH.
Qed.

Lemma lookup_app (k : string) (l1 l2 : entries) :
  lookup k (l1 ++ l2)%list =
  match lookup k l1 with Some v => Some v | None => lookup k l2 end.
Proof.
  induction l1 as [|[k' v] l1 IH]; cbn; auto.
  now destruct (String.eqb k k').
Qed.

Lemma upsert_absent (k : string) (v : node) (l : entries) :
  lookup k l = None -> upsert k v l = (l ++ [(k, v)])%list.
Proof.
  induction l as [|[k' v'] l IH]; cbn; auto.
  destruct (String.eqb k k'); [discriminate|].
  intros H. now rewrite IH.
Qed.

Lemma upsert_app_r (k : string) (v : node) (l1 l2 : entries) :
  lookup k l1 = None ->
  upsert k v (l1 ++ l2)%list = (l1 ++ upsert k v l2)%list.
Proof.
  induction l1 as [|[k' v'] l1 IH]; cbn; auto.
  destruct (String.eqb k k'); [discriminate|].
  intros H. now rewrite IH.
Qed.

Lemma delete_app (k : string) (l1 l2 : entries) :
  delete k (l1 ++ l2)%list = (delete k l1 ++ delete k l2)%list.
Proof.
  induction l1 as [|[k' v'] l1 IH]; cbn; auto.
  destruct (String.eqb k k'); cbn; now rewrite IH.
Qed.

Lemma delete_upsert_comm (k k' : string) (v : node) (l : entries) :
  k <> k' -> delete k (upsert k' v l) = upsert k' v (delete k l).
Proof.
  intros N. induction l as [|[k2 v2] l IH]; cbn.
  - apply String.eqb_neq in N. now rewrite N.
  - destruct (String.eqb k' k2) eqn:E1; destruct (String.eqb k k2) eqn:E2; cbn.
    + apply String.eqb_eq in E1, E2. congruence.
    + apply String.eqb_eq in E1. subst k2.
      rewrite (proj2 (String.eqb_neq k k') N). now rewrite String.eqb_refl.
    + rewrite E2. exact IH.
    + rewrite E2, E1. now rewrite IH.
Qed.

(** A walk that does not start at the added name does not see it. *)
Lemma get_app_other (c k : string) (p : list string) (v : node)
      (t : entries) :
  c <> k -> get (c :: p) (Dir (t ++ [(k, v)])%list) = get (c :: p) (Dir t).
Proof.
  intros N. cbn [get]. rewrite lookup_app. cbn [lookup].
  rewrite (proj2 (String.eqb_neq c k) N). now destruct (lookup c t).
Qed.

(* ================================================================== *)
(** * The stager, step by step *)

Section StageSteps.

Variable cargo : node -> completed.
Variable seconds : string.

(** Lines 9 to 12: the cleanup and the build. *)
Lemma stage_run (top : entries) :
  stage cargo seconds (boot (Dir top)) =
  match lookup staging_dir top with
  | Some (File _) => (Raise NotADirectoryError, boot (Dir top))
  | _ =>
      match cargo (Dir (delete staging_dir top)) with
      | NoSuchProgram =>
          (Raise FileNotFoundError, boot (Dir (delete staging_dir top)))
      | Exited rc after =>
          if Z.eqb rc 0 then stage_after_build seconds (boot after)
          else (Raise (CalledProcessError rc), boot after)
      end
  end.
Proof.
  change (stage cargo seconds) with
    (exists_ <- os_path_exists staging_dir ;;
     (if exists_ : bool then shutil_rmtree staging_dir else ret tt) ;;;
     subprocess_run_check cargo ;;;
     stage_after_build seconds).
  unfold bind at 1. unfold os_path_exists, boot. cbn [fs].
  change (resolve staging_dir) with [staging_dir]. rewrite get_top.
  destruct (lookup staging_dir top) as [[c|l]|] eqn:E.
  - unfold bind, shutil_rmtree, fs_update. cbn [fs].
    change (resolve staging_dir) with [staging_dir]. rewrite get_top, E.
    reflexivity.
  - unfold bind at 1, shutil_rmtree, fs_update. cbn [fs].
    change (resolve staging_dir) with [staging_dir]. rewrite get_top, E.
    cbn [alter]. unfold bind, subprocess_run_check. cbn [fs stdout].
    destruct (cargo _) as [rc after|]; [|reflexivity].
    now destruct (Z.eqb rc 0).
  - unfold bind at 1, ret. rewrite (delete_absent _ _ E).
    unfold bind, subprocess_run_check. cbn [fs stdout].
    destruct (cargo _) as [rc after|]; [|reflexivity].
    now destruct (Z.eqb rc 0).
Qed.

End StageSteps.

(** [os.mkdir] of the staging directory. *)
Lemma mkdir_staging (t : entries) (out : list line) :
  os_mkdir staging_dir (mkState (Dir t) out) =
  match lookup staging_dir t with
  | None =>
      (Ok tt, mkState (Dir (t ++ [(staging_dir, Dir [])])%list) out)
  | Some _ => (Raise FileExistsError, mkState (Dir t) out)
  end.
Proof.
  unfold os_mkdir, fs_update. cbn [fs stdout].
  change (resolve staging_dir) with [staging_dir]. cbn [alter].
  destruct (lookup staging_dir t) eqn:E; [reflexivity|].
  now rewrite (upsert_absent _ _ _ E).
Qed.

(** One [shutil.copytree] of the loop, the staging directory being the
    last entry of the working directory. *)
Lemma copytree_into_staging (t S : entries) (d : string) (out : list line) :
  resolve d = [d] ->
  resolve (staging_dir ++ "/" ++ d) = [staging_dir; d] ->
  d <> staging_dir ->
  lookup staging_dir t = None ->
  lookup d S = None ->
  shutil_copytree d (staging_dir ++ "/" ++ d)
    (mkState (Dir (t ++ [(staging_dir, Dir S)])%list) out) =
  match lookup d t with
  | Some (Dir ents) =>
      (Ok tt,
       mkState (Dir (t ++ [(staging_dir, Dir (S ++ [(d, Dir ents)]))])%list)
               out)
  | Some (File _) =>
      (Raise NotADirectoryError,
       mkState (Dir (t ++ [(staging_dir, Dir S)])%list) out)
  | None =>
      (Raise FileNotFoundError,
       mkState (Dir (t ++ [(staging_dir, Dir S)])%list) out)
  end.
Proof.
  intros R1 R2 Hd Ht HS.
  unfold shutil_copytree, fs_update. cbn [fs stdout]. rewrite R1, R2.
  rewrite (get_app_other _ _ _ _ _ Hd), get_top.
  destruct (lookup d t) as [[c|ents]|] eqn:E; try reflexivity.
  cbn [makedirs_with]. rewrite lookup_app, Ht. cbn [lookup].
  rewrite String.eqb_refl, HS.
  rewrite (upsert_absent _ _ _ HS).
  rewrite (upsert_app_r _ _ _ _ Ht). cbn [upsert].
  now rewrite String.eqb_refl.
Qed.

(** The [shutil.copy] of the executable. *)
Lemma copy_executable (t S : entries) (out : list line) :
  lookup staging_dir t = None ->
  lookup "hot_chickens.exe" S = None ->
  shutil_copy "target/release/hot_chickens.exe" (staging_dir ++ "/")
    (mkState (Dir (t ++ [(staging_dir, Dir S)])%list) out) =
  match get ["target"; "release"; "hot_chickens.exe"] (Dir t) with
  | Some (File x) =>
      (Ok tt,
       mkState (Dir (t ++ [(staging_dir,
                            Dir (S ++ [("hot_chickens.exe", File x)]))])%list)
               out)
  | Some (Dir _) =>
      (Raise IsADirectoryError,
       mkState (Dir (t ++ [(staging_dir, Dir S)])%list) out)
  | None =>
      (Raise FileNotFoundError,
       mkState (Dir (t ++ [(staging_dir, Dir S)])%list) out)
  end.
Proof.
  intros Ht HS.
  unfold shutil_copy, fs_update. cbn [fs stdout].
  change (resolve (staging_dir ++ "/")) with [staging_dir].
  change (resolve "target/release/hot_chickens.exe")
    with ["target"; "release"; "hot_chickens.exe"].
  rewrite get_top, lookup_app, Ht. cbn [lookup]. rewrite String.eqb_refl.
  change (resolve (path_join (staging_dir ++ "/")
                     (basename "target/release/hot_chickens.exe")))
    with [staging_dir; "hot_chickens.exe"].
  rewrite get_app_other by discriminate.
  destruct (get ["target"; "release"; "hot_chickens.exe"] (Dir t))
    as [[x|ents]|]; try reflexivity.
  change (walk_eqb ["target"; "release"; "hot_chickens.exe"]
                   [staging_dir; "hot_chickens.exe"]) with false.
  cbv iota. rewrite alter_cons, lookup_app, Ht. cbn [lookup].
  rewrite String.eqb_refl. cbn [alter]. rewrite HS.
  rewrite (upsert_absent _ _ _ HS).
  rewrite (upsert_app_r _ _ _ _ Ht). cbn [upsert].
  now rewrite String.eqb_refl.
Qed.

(** Lines 22 to 29 on an assembled staging directory. *)
Lemma stage_archive_run (seconds : string) (t S : entries)
      (out : list line) :
  lookup staging_dir t = None ->
  stage_archive seconds
    (mkState (Dir (t ++ [(staging_dir, Dir S)])%list) out) =
  match lookup "hot_chickens.7z" t with
  | Some (Dir _) =>
      (Raise IsADirectoryError,
       mkState (Dir (t ++ [(staging_dir, Dir S)])%list)
               (out ++ [Compressing])%list)
  | _ =>
      (Ok tt,
       mkState
         (Dir (upsert "hot_chickens.7z"
                 (File (SevenZ (writeall_walk staging_dir (Dir S)))) t))
         (out ++ [Compressing; DoneIn seconds])%list)
  end.
Proof.
  intros Ht.
  assert (Harch : lookup "hot_chickens.7z" (t ++ [(staging_dir, Dir S)])%list
                  = lookup "hot_chickens.7z" t).
  { rewrite lookup_app. now destruct (lookup "hot_chickens.7z" t). }
  assert (Hfinal : forall F,
    delete staging_dir
      (upsert "hot_chickens.7z" F (t ++ [(staging_dir, Dir S)])%list)
    = upsert "hot_chickens.7z" F t).
  { intros F. rewrite delete_upsert_comm by discriminate.
    rewrite delete_app, (delete_absent _ _ Ht). cbn [delete].
    rewrite String.eqb_refl. now rewrite app_nil_r. }
  unfold stage_archive. unfold bind at 1, print at 1. cbn [fs stdout].
  unfold bind at 1, with_SevenZipFile_w. unfold bind at 1.
  unfold write_file at 1, fs_update. cbn [fs stdout].
  change (resolve "hot_chickens.7z") with ["hot_chickens.7z"].
  cbn [alter]. rewrite Harch.
  destruct (lookup "hot_chickens.7z" t) as [[x|ents]|] eqn:E;
    try reflexivity.
  all: unfold writeall; cbn [fs stdout];
    change (resolve staging_dir) with [staging_dir];
    rewrite get_top, lookup_upsert_other by discriminate;
    rewrite lookup_app, Ht; cbn [lookup]; rewrite String.eqb_refl;
    unfold write_file, fs_update; cbn [fs stdout];
    change (resolve "hot_chickens.7z") with ["hot_chickens.7z"];
    cbn [alter]; rewrite lookup_upsert_same, upsert_upsert;
    unfold bind, shutil_rmtree, fs_update, print; cbn [fs stdout];
    change (resolve staging_dir) with [staging_dir];
    rewrite get_top, lookup_upsert_other by discriminate;
    rewrite lookup_app, Ht; cbn [lookup]; rewrite String.eqb_refl;
    cbn [alter fs stdout]; rewrite Hfinal, <- app_assoc; reflexivity.
Qed.

Lemma bind_ok {A B} (m : M A) (k : A -> M B) (s s' : state) (a : A) :
  m s = (Ok a, s') -> bind m k s = k a s'.
Proof. unfold bind. now intros ->. Qed.

Lemma bind_raise {A B} (m : M A) (k : A -> M B) (s s' : state) (e : exn) :
  m s = (Raise e, s') -> bind m k s = (Raise e, s').
Proof. unfold bind. now intros ->. Qed.

(** A step that raised ends the run; one that returned hands its state
    on. *)
Ltac raised H :=
  right; eexists _, _; split;
  [ apply bind_raise; exact H
  | cbn [fs]; eexists; split; reflexivity ].
Ltac returned H := rewrite (bind_ok _ _ _ _ _ H).

(** Lines 16 and 17: the loop over the four asset directories. *)
Lemma copy_dirs_run (t : entries) (out : list line) :
  lookup staging_dir t = None ->
  (exists m mo sh sk,
     lookup "materials" t = Some (Dir m) /\
     lookup "models" t = Some (Dir mo) /\
     lookup "shaders" t = Some (Dir sh) /\
     lookup "skyboxes" t = Some (Dir sk) /\
     for_each dirs (fun d => shutil_copytree d (staging_dir ++ "/" ++ d))
       (mkState (Dir (t ++ [(staging_dir, Dir [])])%list) out) =
     (Ok tt,
      mkState (Dir (t ++ [(staging_dir,
                           Dir [("materials", Dir m); ("models", Dir mo);
                                ("shaders", Dir sh); ("skyboxes", Dir sk)])])%list)
              out))
  \/ (exists e s',
        for_each dirs (fun d => shutil_copytree d (staging_dir ++ "/" ++ d))
          (mkState (Dir (t ++ [(staging_dir, Dir [])])%list) out) =
        (Raise e, s') /\
        exists X, fs s' = Dir (t ++ X)%list /\
                  lookup "hot_chickens.7z" X = None).
Proof.
  intros Ht. cbn [for_each dirs].
  pose proof (copytree_into_staging t [] "materials" out eq_refl eq_refl
                ltac:(discriminate) Ht eq_refl) as H1.
  destruct (lookup "materials" t) as [[c|m]|];
    [raised H1 | returned H1 | raised H1].
  pose proof (copytree_into_staging t _ "models" out eq_refl eq_refl
                ltac:(discriminate) Ht
                (eq_refl : lookup "models" [("materials", Dir m)] = None))
    as H2.
  destruct (lookup "models" t) as [[c|mo]|];
    [raised H2 | returned H2 | raised H2].
  pose proof (copytree_into_staging t _ "shaders" out eq_refl eq_refl
                ltac:(discriminate) Ht
                (eq_refl : lookup "shaders"
                             [("materials", Dir m); ("models", Dir mo)] = None))
    as H3.
  destruct (lookup "shaders" t) as [[c|sh]|];
    [raised H3 | returned H3 | raised H3].
  pose proof (copytree_into_staging t _ "skyboxes" out eq_refl eq_refl
                ltac:(discriminate) Ht
                (eq_refl : lookup "skyboxes"
                             [("materials", Dir m); ("models", Dir mo);
                              ("shaders", Dir sh)] = None))
    as H4.
  destruct (lookup "skyboxes" t) as [[c|sk]|];
    [raised H4 | returned H4 | raised H4].
  left. exists m, mo, sh, sk. repeat split; reflexivity.
Qed.

(** Lines 14 to 29: either the run comes to its end, the working
    directory held what was needed, and the archive is written and the
    staging directory gone; or an exception ends it. *)
Lemma stage_after_build_run (seconds : string) (t : entries)
      (out : list line) :
  (exists S,
     lookup staging_dir t = None /\ staged t = Some (Dir S) /\
     (forall l, lookup "hot_chickens.7z" t <> Some (Dir l)) /\
     stage_after_build seconds (mkState (Dir t) out) =
     (Ok tt,
      mkState
        (Dir (upsert "hot_chickens.7z"
                (File (SevenZ (writeall_walk staging_dir (Dir S)))) t))
        (out ++ [Compressing; DoneIn seconds])%list))
  \/ (exists e s',
        stage_after_build seconds (mkState (Dir t) out) = (Raise e, s') /\
        exists X, fs s' = Dir (t ++ X)%list /\
                  lookup "hot_chickens.7z" X = None).
Proof.
  change (stage_after_build seconds) with
    (os_mkdir staging_dir ;;;
     for_each dirs (fun d => shutil_copytree d (staging_dir ++ "/" ++ d)) ;;;
     shutil_copy "target/release/hot_chickens.exe" (staging_dir ++ "/") ;;;
     stage_archive seconds).
  pose proof (mkdir_staging t out) as Hmk.
  destruct (lookup staging_dir t) eqn:Ht.
  { right. eexists _, _. split; [apply bind_raise; exact Hmk|].
    exists []. now rewrite app_nil_r. }
  returned Hmk.
  destruct (copy_dirs_run t out Ht)
    as [(m & mo & sh & sk & E1 & E2 & E3 & E4 & Hloop)
       |(e & s' & Hloop & Hkept)].
  2:{ right. exists e, s'. split; [apply bind_raise; exact Hloop | exact Hkept]. }
  returned Hloop.
  pose proof (copy_executable t _ out Ht
                (eq_refl : lookup "hot_chickens.exe"
                             [("materials", Dir m); ("models", Dir mo);
                              ("shaders", Dir sh); ("skyboxes", Dir sk)]
                           = None)) as Hexe.
  unfold staged. rewrite E1, E2, E3, E4.
  destruct (get ["target"; "release"; "hot_chickens.exe"] (Dir t))
    as [[x|ents]|]; [returned Hexe | raised Hexe | raised Hexe].
  cbn [app]. rewrite (stage_archive_run seconds t _ out Ht).
  destruct (lookup "hot_chickens.7z" t) as [[y|ents]|] eqn:Ea.
  - left. eexists. repeat split; auto. discriminate.
  - right. eexists _, _. split; [reflexivity|].
    cbn [fs]. eexists. split; reflexivity.
  - left. eexists. repeat split; auto. discriminate.
Qed.

(** A run that comes to its end: what the build must have left, and what
    the run leaves. *)
Lemma stage_success (cargo : node -> completed) (seconds : string)
      (top : entries) (st' : state) :
  stage cargo seconds (boot (Dir top)) = (Ok tt, st') ->
  exists t S,
    cargo (Dir (delete staging_dir top)) = Exited 0 (Dir t) /\
    lookup staging_dir t = None /\ staged t = Some (Dir S) /\
    fs st' = Dir (upsert "hot_chickens.7z"
                    (File (SevenZ (writeall_walk staging_dir (Dir S)))) t) /\
    stdout st' = [Compressing; DoneIn seconds].
Proof.
  rewrite stage_run. intros H.
  assert (Hrun : exists rc after,
            cargo (Dir (delete staging_dir top)) = Exited rc after /\
            Z.eqb rc 0 = true /\
            stage_after_build seconds (boot after) = (Ok tt, st')).
  { destruct (lookup staging_dir top) as [[c|l]|];
      try discriminate;
      (destruct (cargo (Dir (delete staging_dir top))) as [rc after|];
       [|discriminate]);
      (destruct (Z.eqb rc 0) eqn:Erc; [|discriminate]); eauto. }
  destruct Hrun as (rc & after & Hc & Erc & Hrest).
  apply Z.eqb_eq in Erc. subst rc.
  destruct after as [x|t].
  { cbv in Hrest. discriminate. }
  exists t. unfold boot in Hrest.
  destruct (stage_after_build_run seconds t [])
    as [(S & Ht & HS & _ & Hok)|(e & s' & Hbad & _)]; [|congruence].
  rewrite Hok in Hrest. injection Hrest as <-.
  exists S. repeat split; auto.
Qed.

(* ================================================================== *)
(** * The member paths of the archive *)

Lemma node_ind2 (P : node -> Prop) :
  (forall d, P (File d)) ->
  (forall ents, Forall (fun kv => P (snd kv)) ents -> P (Dir ents)) ->
  forall n, P n.
Proof.
  intros HF HD.
  fix rec 1. intros [d|ents].
  - apply HF.
  - apply HD. induction ents as [|[k v] ents IH]; constructor.
    + cbn. apply rec.
    + exact IH.
Qed.

Lemma split_on_nonempty (sep : ascii) (s : string) : split_on sep s <> [].
Proof.
  destruct s as [|c s]; cbn; [discriminate|].
  destruct (Ascii.eqb c sep); [discriminate|].
  destruct (split_on sep s); discriminate.
Qed.

Lemma split_on_app (sep : ascii) (a b : string) :
  split_on sep (a ++ String sep b) = (split_on sep a ++ split_on sep b)%list.
Proof.
  induction a as [|c a IH]; cbn.
  - now rewrite Ascii.eqb_refl.
  - destruct (Ascii.eqb c sep); [now rewrite IH|].
    rewrite IH. pose proof (split_on_nonempty sep a) as N.
    destruct (split_on sep a); [contradiction | reflexivity].
Qed.

Lemma resolve_app (a b : string) :
  resolve (a ++ "/" ++ b) = (resolve a ++ resolve b)%list.
Proof.
  unfold resolve, components.
  change (a ++ "/" ++ b) with (a ++ String "/" b).
  now rewrite split_on_app, filter_app.
Qed.

Lemma string_app_assoc (a b c : string) : (a ++ b) ++ c = a ++ (b ++ c).
Proof. induction a as [|x a IH]; cbn; [reflexivity | now rewrite IH]. Qed.

(** The groups of a directory, as a [map]. *)
Lemma writeall_walk_Dir (path : string) (ents : entries) :
  writeall_walk path (Dir ents) =
  ((match resolve path with [] => [] | _ :: _ => [(path, MDir)] end)
   ++ List.concat (map snd (sort_by_name
        (map (fun kv => (fst kv, writeall_walk (path ++ "/" ++ fst kv) (snd kv)))
             ents))))%list.
Proof.
  cbn [writeall_walk]. do 4 f_equal.
  induction ents as [|[k v] ents IH]; [reflexivity|].
  cbn [map fst snd]. rewrite <- IH. reflexivity.
Qed.

(** Sorting looks at the names only. *)
Lemma insert_by_name_map {A B} (h : A -> B) (x : string * A)
      (l : list (string * A)) :
  insert_by_name (fst x, h (snd x)) (map (fun g => (fst g, h (snd g))) l) =
  map (fun g => (fst g, h (snd g))) (insert_by_name x l).
Proof.
  induction l as [|y l IH]; cbn; [reflexivity|].
  destruct (String.leb (fst x) (fst y)); cbn; [reflexivity | now rewrite IH].
Qed.

Lemma sort_by_name_map {A B} (h : A -> B) (l : list (string * A)) :
  sort_by_name (map (fun g => (fst g, h (snd g))) l) =
  map (fun g => (fst g, h (snd g))) (sort_by_name l).
Proof.
  induction l as [|x l IH]; cbn; [reflexivity|].
  rewrite IH. apply insert_by_name_map.
Qed.

Lemma map_snd_values {A B} (h : A -> B) (l : list (string * A)) :
  map h (map snd l) = map snd (map (fun g => (fst g, h (snd g))) l).
Proof. rewrite !map_map. now apply map_ext. Qed.

Lemma under_app (dir : string) (a b : listing) :
  under dir (a ++ b)%list = (under dir a ++ under dir b)%list.
Proof. apply map_app. Qed.

Lemma under_concat (dir : string) (ls : list listing) :
  under dir (List.concat ls) = List.concat (map (under dir) ls).
Proof.
  induction ls as [|l ls IH]; [reflexivity|].
  cbn [List.concat map]. now rewrite under_app, IH.
Qed.

(** Walking a tree from a longer path prefixes every member path. *)
Lemma writeall_walk_under (pre : string) (n : node) :
  forall p, resolve p <> [] ->
  writeall_walk (pre ++ "/" ++ p) n = under pre (writeall_walk p n).
Proof.
  induction n as [d|ents IH] using node_ind2; intros p Hp.
  - reflexivity.
  - rewrite !writeall_walk_Dir, under_app, under_concat.
    rewrite resolve_app.
    destruct (resolve p) as [|c rp] eqn:Ep; [contradiction|].
    f_equal.
    + now destruct (resolve pre).
    + f_equal.
      rewrite map_snd_values, <- sort_by_name_map, map_map. cbn [fst snd].
      do 2 f_equal.
      apply map_ext_Forall. revert IH. apply Forall_impl.
      intros [k v] H. cbn [fst snd] in *. f_equal.
      change ((pre ++ "/" ++ p) ++ "/" ++ k)
        with ((pre ++ String "/" p) ++ String "/" k).
      rewrite string_app_assoc.
      change (pre ++ String "/" p ++ String "/" k)
        with (pre ++ "/" ++ (p ++ "/" ++ k)).
      apply H. rewrite resolve_app, Ep. discriminate.
Qed.

(** The archive [writeall] makes of a directory: the directory itself,
    then everything in it, each member under the directory's path. *)
Lemma writeall_walk_root (dir : string) (ents : entries) :
  resolve dir <> [] ->
  Forall (fun kv => resolve (fst kv) <> []) ents ->
  writeall_walk dir (Dir ents) =
  (dir, MDir) :: under dir (relative_listing (Dir ents)).
Proof.
  intros Hd Hents. rewrite writeall_walk_Dir.
  destruct (resolve dir) eqn:E; [contradiction|]. cbn [app]. f_equal.
  unfold relative_listing. rewrite under_concat.
  rewrite map_snd_values, <- sort_by_name_map, map_map. cbn [fst snd].
  do 3 f_equal.
  apply map_ext_Forall. revert Hents. apply Forall_impl.
  intros [k v] H. cbn [fst snd] in *. f_equal.
  now apply writeall_walk_under.
Qed.

Lemma In_insert_by_name {A} (x y : string * A) (l : list (string * A)) :
  In y (insert_by_name x l) <-> y = x \/ In y l.
Proof.
  induction l as [|z l IH]; cbn.
  - intuition.
  - destruct (String.leb (fst x) (fst z)); cbn; [intuition|].
    rewrite IH. intuition.
Qed.

Lemma In_sort_by_name {A} (y : string * A) (l : list (string * A)) :
  In y (sort_by_name l) <-> In y l.
Proof.
  induction l as [|x l IH]; cbn; [tauto|].
  rewrite In_insert_by_name, IH. intuition.
Qed.

(** Every node of the tree is a member, under the path that leads to
    it. *)
Lemma writeall_walk_complete (n : node) :
  forall path, resolve path <> [] ->
  In (path, member_of n) (writeall_walk path n) /\
  (forall c p nd, get (c :: p) n = Some nd ->
     In (path ++ "/" ++ join_path (c :: p), member_of nd)
        (writeall_walk path n)).
Proof.
  induction n as [d|ents IH] using node_ind2; intros path Hp.
  - split; [now left | discriminate].
  - rewrite writeall_walk_Dir.
    destruct (resolve path) as [|r0 rp] eqn:Ep; [contradiction|].
    split; [now left|].
    intros c p nd Hget. cbn [get] in Hget.
    destruct (lookup c ents) as [ch|] eqn:Hc; [|discriminate].
    apply lookup_In in Hc.
    rewrite Forall_forall in IH. specialize (IH _ Hc (path ++ "/" ++ c)).
    cbn [snd] in IH.
    destruct IH as [IHa IHb]; [rewrite resolve_app, Ep; discriminate|].
    apply in_or_app. right. apply in_concat.
    exists (writeall_walk (path ++ "/" ++ c) ch). split.
    + change (writeall_walk (path ++ "/" ++ c) ch)
        with (snd (c, writeall_walk (path ++ "/" ++ c) ch)).
      apply in_map. apply In_sort_by_name.
      change (c, writeall_walk (path ++ "/" ++ c) ch)
        with ((fun kv : string * node =>
                 (fst kv, writeall_walk (path ++ "/" ++ fst kv) (snd kv)))
                (c, ch)).
      now apply in_map.
    + destruct p as [|c' p].
      * cbn in Hget. injection Hget as <-. exact IHa.
      * specialize (IHb _ _ _ Hget).
        change (join_path (c :: c' :: p))
          with (c ++ "/" ++ join_path (c' :: p)).
        change ((path ++ "/" ++ c) ++ "/" ++ join_path (c' :: p))
          with ((path ++ String "/" c) ++ String "/" (join_path (c' :: p)))
          in IHb.
        rewrite string_app_assoc in IHb. exact IHb.
Qed.

Lemma staged_inv (t S : entries) :
  staged t = Some (Dir S) ->
  exists m mo sh sk x,
    lookup "materials" t = Some (Dir m) /\
    lookup "models" t = Some (Dir mo) /\
    lookup "shaders" t = Some (Dir sh) /\
    lookup "skyboxes" t = Some (Dir sk) /\
    get ["target"; "release"; "hot_chickens.exe"] (Dir t) = Some (File x) /\
    S = [("materials", Dir m); ("models", Dir mo); ("shaders", Dir sh);
         ("skyboxes", Dir sk); ("hot_chickens.exe", File x)].
Proof.
  unfold staged.
  destruct (lookup "materials" t) as [[?|m]|]; try discriminate.
  destruct (lookup "models" t) as [[?|mo]|]; try discriminate.
  destruct (lookup "shaders" t) as [[?|sh]|]; try discriminate.
  destruct (lookup "skyboxes" t) as [[?|sk]|]; try discriminate.
  destruct (get ["target"; "release"; "hot_chickens.exe"] (Dir t))
    as [[x|?]|]; try discriminate.
  intros [= <-]. exists m, mo, sh, sk, x. repeat split.
Qed.

(** A run that an exception ended left the output name as it was, if the
    build did. *)
Lemma stage_raised_keeps_archive (cargo : node -> completed)
      (seconds : string) (top : entries) (e : exn) (st' : state) :
  build_leaves cargo ["hot_chickens.7z"] ->
  stage cargo seconds (boot (Dir top)) = (Raise e, st') ->
  get ["hot_chickens.7z"] (fs st') = get ["hot_chickens.7z"] (Dir top).
Proof.
  intros Hb. rewrite stage_run. intros H.
  assert (Hclean : get ["hot_chickens.7z"] (Dir (delete staging_dir top))
                   = get ["hot_chickens.7z"] (Dir top)).
  { rewrite !get_top. apply lookup_delete_other. discriminate. }
  assert (Hrest :
    (exists c, lookup staging_dir top = Some (File c)) \/
    match cargo (Dir (delete staging_dir top)) with
    | NoSuchProgram =>
        (Raise FileNotFoundError, boot (Dir (delete staging_dir top)))
    | Exited rc after =>
        if Z.eqb rc 0 then stage_after_build seconds (boot after)
        else (Raise (CalledProcessError rc), boot after)
    end = (Raise e, st')).
  { destruct (lookup staging_dir top) as [[c|l]|]; eauto. }
  destruct Hrest as [(c & Hc)|Hrest].
  { rewrite Hc in H. now injection H as <- <-. }
  clear H. specialize (Hb (Dir (delete staging_dir top))).
  destruct (cargo (Dir (delete staging_dir top))) as [rc after|].
  - specialize (Hb _ _ eq_refl). rewrite <- Hclean, <- Hb.
    destruct (Z.eqb rc 0).
    + destruct after as [x|t].
      * cbv in Hrest. now injection Hrest as <- <-.
      * destruct (stage_after_build_run seconds t [])
          as [(S & _ & _ & _ & Hok)|(e' & s' & Hbad & X & HX & HXa)].
        -- unfold boot in Hrest. congruence.
        -- unfold boot in Hrest. rewrite Hbad in Hrest.
           injection Hrest as <- <-. rewrite HX, !get_top, lookup_app.
           rewrite HXa. now destruct (lookup "hot_chickens.7z" t).
    + now injection Hrest as <- <-.
  - injection Hrest as <- <-. exact Hclean.
Qed.

Lemma archive_of_fs (st : state) (t : entries) (ms : listing) :
  fs st = Dir (upsert "hot_chickens.7z" (File (SevenZ ms)) t) ->
  archive_of st = Some ms.
Proof.
  intros H. unfold archive_of. rewrite H.
  change (resolve "hot_chickens.7z") with ["hot_chickens.7z"].
  now rewrite get_top, lookup_upsert_same.
Qed.

Lemma staging_gone (st : state) (t : entries) (v : node) :
  lookup staging_dir t = None ->
  fs st = Dir (upsert "hot_chickens.7z" v t) ->
  get (resolve staging_dir) (fs st) = None.
Proof.
  intros Ht H. rewrite H. change (resolve staging_dir) with [staging_dir].
  rewrite get_top, lookup_upsert_other by discriminate. exact Ht.
Qed.

(* ================================================================== *)
(** * Properties of the stager *)

(** C1, as the code has it.  After a run that came to its end, the file
    at the output name is an archive of the whole staging tree: the four
    asset directories and the executable as the build left them.  Every
    node of that tree is a member, and the member paths are the paths
    [writeall] was given and built from it: the staging directory itself
    is a member, and every other member path starts with its name. *)
Theorem archive_holds_staging_tree (cargo : node -> completed)
        (seconds : string) (top t1 : entries) (st' : state) :
  stage cargo seconds (boot (Dir top)) = (Ok tt, st') ->
  cargo (Dir (delete staging_dir top)) = Exited 0 (Dir t1) ->
  exists staging members,
    staged t1 = Some staging /\
    archive_of st' = Some members /\
    members =
      (staging_dir, MDir) :: under staging_dir (relative_listing staging) /\
    (forall c p nd,
       get (c :: p) staging = Some nd ->
       In (staging_dir ++ "/" ++ join_path (c :: p), member_of nd) members).
Proof.
  intros H Hc.
  destruct (stage_success _ _ _ _ H) as (t & S & Hc' & Ht & HS & Hfs & _).
  rewrite Hc in Hc'. injection Hc' as <-.
  exists (Dir S), (writeall_walk staging_dir (Dir S)).
  split; [exact HS|]. split; [now apply (archive_of_fs _ t1)|].
  split.
  - destruct (staged_inv _ _ HS) as (m & mo & sh & sk & x & _ & _ & _ & _ & _ & ->).
    apply writeall_walk_root; [discriminate|].
    repeat constructor; discriminate.
  - apply writeall_walk_complete. discriminate.
Qed.

Lemma archive_holds_staging_tree_witness :
  exists staging members,
    staged (delete staging_dir sample_checkout) = Some staging /\
    archive_of (snd (stage build_ok "1.0000" (boot (Dir sample_checkout))))
    = Some members /\
    members =
      (staging_dir, MDir) :: under staging_dir (relative_listing staging) /\
    (forall c p nd,
       get (c :: p) staging = Some nd ->
       In (staging_dir ++ "/" ++ join_path (c :: p), member_of nd) members).
Proof.
  apply (archive_holds_staging_tree build_ok "1.0000" sample_checkout).
  - reflexivity.
  - reflexivity.
Defined.

(** C1, as the specification words it, fails: the members of the archive
    of the sample are not named by their paths from the staging root. *)
Lemma archived_relative_fails :
  ~ archived_relative build_ok "1.0000" sample_checkout.
Proof.
  intros H.
  destruct (H (snd (stage build_ok "1.0000" (boot (Dir sample_checkout))))
              (delete staging_dir sample_checkout) eq_refl eq_refl)
    as (staging & HS & HA).
  vm_compute in HS. injection HS as <-.
  vm_compute in HA. discriminate.
Qed.

(** C3.  When the build exits with a status other than zero, the run ends
    there with [CalledProcessError], so the process exits with a status
    other than zero.  Nothing was printed and the working directory is as
    the build left it: lines 14 to 29 did not run.  The build was started
    without a staging directory; if the build itself leaves the staging
    path and the output name alone, there is no staging directory after
    the run, and the output name holds what it held before the run, so no
    archive has been created. *)
Theorem failed_build_aborts (cargo : node -> completed) (seconds : string)
        (top : entries) (rc : Z) (after : node) :
  (forall c, lookup staging_dir top <> Some (File c)) ->
  cargo (Dir (delete staging_dir top)) = Exited rc after ->
  rc <> 0%Z ->
  build_leaves cargo (resolve staging_dir) ->
  build_leaves cargo (resolve "hot_chickens.7z") ->
  exists st',
    stage cargo seconds (boot (Dir top))
    = (Raise (CalledProcessError rc), st') /\
    exit_status (fst (stage cargo seconds (boot (Dir top)))) <> 0%Z /\
    fs st' = after /\
    stdout st' = [] /\
    get (resolve staging_dir) (Dir (delete staging_dir top)) = None /\
    get (resolve staging_dir) (fs st') = None /\
    get (resolve "hot_chickens.7z") (fs st')
    = get (resolve "hot_chickens.7z") (Dir top).
Proof.
  intros Hnf Hc Hrc Hdist Harch.
  assert (Hrun : stage cargo seconds (boot (Dir top))
                 = (Raise (CalledProcessError rc), boot after)).
  { rewrite stage_run, Hc. apply Z.eqb_neq in Hrc. rewrite Hrc.
    destruct (lookup staging_dir top) as [[c|l]|] eqn:E; auto.
    exfalso. apply (Hnf c). reflexivity. }
  assert (Hgone : get (resolve staging_dir) (Dir (delete staging_dir top))
                  = None).
  { change (resolve staging_dir) with [staging_dir].
    rewrite get_top. apply lookup_delete_same. }
  exists (boot after). rewrite Hrun. cbn [fst fs stdout boot exit_status].
  repeat split; auto.
  - discriminate.
  - rewrite (Hdist _ _ _ Hc). exact Hgone.
  - rewrite (Harch _ _ _ Hc).
    change (resolve "hot_chickens.7z") with ["hot_chickens.7z"].
    rewrite !get_top. apply lookup_delete_other. discriminate.
Qed.

Lemma build_broken_leaves (p : list string) : build_leaves build_broken p.
Proof.
  intros n rc after H. unfold build_broken in H. now injection H as <- <-.
Defined.

Lemma failed_build_aborts_witness :
  exists st',
    stage build_broken "1.0000" (boot (Dir sample_checkout))
    = (Raise (CalledProcessError 101), st') /\
    exit_status (fst (stage build_broken "1.0000" (boot (Dir sample_checkout))))
    <> 0%Z /\
    fs st' = Dir (delete staging_dir sample_checkout) /\
    stdout st' = [] /\
    get (resolve staging_dir) (Dir (delete staging_dir sample_checkout))
    = None /\
    get (resolve staging_dir) (fs st') = None /\
    get (resolve "hot_chickens.7z") (fs st')
    = get (resolve "hot_chickens.7z") (Dir sample_checkout).
Proof.
  apply (failed_build_aborts build_broken "1.0000" sample_checkout 101).
  - intros c. vm_compute. discriminate.
  - reflexivity.
  - lia.
  - apply build_broken_leaves.
  - apply build_broken_leaves.
Defined.

(** C6.  Of two runs in a row that both come to their end, neither leaves
    a staging directory; the first leaves an archive at the output name;
    and the archive the second leaves there is the one made of the staging
    tree of the second build, whatever the first had written. *)
Theorem completed_runs_clean_up_and_overwrite
        (cargo1 cargo2 : node -> completed) (seconds1 seconds2 : string)
        (top : entries) (st1 st2 : state) :
  stage cargo1 seconds1 (boot (Dir top)) = (Ok tt, st1) ->
  stage cargo2 seconds2 (boot (fs st1)) = (Ok tt, st2) ->
  get (resolve staging_dir) (fs st1) = None /\
  get (resolve staging_dir) (fs st2) = None /\
  (exists first, archive_of st1 = Some first) /\
  (exists t2 staging2,
     cargo2 (fs st1) = Exited 0 (Dir t2) /\
     staged t2 = Some staging2 /\
     archive_of st2 = Some (writeall_walk staging_dir staging2)).
Proof.
  intros H1 H2.
  destruct (stage_success _ _ _ _ H1) as (t1 & S1 & _ & Ht1 & _ & Hfs1 & _).
  pose proof (staging_gone _ _ _ Ht1 Hfs1) as Hgone1.
  rewrite Hfs1 in H2.
  destruct (stage_success _ _ _ _ H2) as (t2 & S2 & Hc2 & Ht2 & HS2 & Hfs2 & _).
  rewrite delete_absent in Hc2
    by (rewrite lookup_upsert_other by discriminate; exact Ht1).
  repeat split.
  - exact Hgone1.
  - exact (staging_gone _ _ _ Ht2 Hfs2).
  - eexists. exact (archive_of_fs _ _ _ Hfs1).
  - exists t2, (Dir S2). rewrite Hfs1. repeat split; auto.
    exact (archive_of_fs _ _ _ Hfs2).
Qed.

Lemma completed_runs_clean_up_and_overwrite_witness :
  get (resolve staging_dir)
      (fs (snd (stage build_ok "1.0000" (boot (Dir sample_checkout))))) = None /\
  get (resolve staging_dir)
      (fs (snd (stage build_ok "2.0000"
                  (boot (fs (snd (stage build_ok "1.0000"
                                    (boot (Dir sample_checkout))))))))) = None /\
  (exists first,
     archive_of (snd (stage build_ok "1.0000" (boot (Dir sample_checkout))))
     = Some first) /\
  (exists t2 staging2,
     build_ok (fs (snd (stage build_ok "1.0000" (boot (Dir sample_checkout)))))
     = Exited 0 (Dir t2) /\
     staged t2 = Some staging2 /\
     archive_of
       (snd (stage build_ok "2.0000"
               (boot (fs (snd (stage build_ok "1.0000"
                                 (boot (Dir sample_checkout))))))))
     = Some (writeall_walk staging_dir staging2)).
Proof.
  apply (completed_runs_clean_up_and_overwrite build_ok build_ok
           "1.0000" "2.0000" sample_checkout).
  - reflexivity.
  - reflexivity.
Defined.

(** C10.  A run that the failure of the build ends, or any exception
    raised before the archive step announces itself, leaves the archive
    of an earlier run where it was and as it was, provided the build does
    not touch the output name: nothing in lines 9 to 19 writes there. *)
Theorem old_archive_survives_abort (cargo : node -> completed)
        (seconds : string) (top : entries) (old : node) (e : exn)
        (st' : state) :
  lookup "hot_chickens.7z" top = Some old ->
  build_leaves cargo (resolve "hot_chickens.7z") ->
  stage cargo seconds (boot (Dir top)) = (Raise e, st') ->
  (exists rc, e = CalledProcessError rc) \/ ~ In Compressing (stdout st') ->
  get (resolve "hot_chickens.7z") (fs st') = Some old.
Proof.
  intros Hold Hb H _.
  change (resolve "hot_chickens.7z") with ["hot_chickens.7z"] in *.
  rewrite (stage_raised_keeps_archive _ _ _ _ _ Hb H), get_top. exact Hold.
Qed.

Lemma old_archive_survives_abort_witness :
  get (resolve "hot_chickens.7z")
      (fs (snd (stage build_broken "1.0000" (boot (Dir sample_checkout)))))
  = Some (File (SevenZ [("dist", MDir)])).
Proof.
  apply (old_archive_survives_abort build_broken "1.0000" sample_checkout
           (File (SevenZ [("dist", MDir)])) (CalledProcessError 101)).
  - reflexivity.
  - apply build_broken_leaves.
  - reflexivity.
  - left. exists 101%Z. reflexivity.
Defined.

(* ================================================================== *)
(** * The renamer: output, exceptions, fixed points *)





Lemma rename_entries_raises (a b : string) (l : entries) (e : exn) :
  rename_entries a b l = Raise e -> lookup a l <> None -> collision e.
Proof.
  unfold rename_entries, collision.
  destruct (lookup a l) as [nd|]; [|congruence].
  destruct (String.eqb a b); [discriminate|].
  intros H _. unfold replace_check in H.
  destruct (lookup b l) as [[x|[|y ys]]|]; destruct nd; try discriminate;
    injection H as <-; auto.
Qed.

(** After a rename the other listed names are still there. *)
Lemma rename_entries_present (a b k : string) (l l' : entries) :
  rename_entries a b l = Ok l' -> k <> a ->
  lookup k l <> None -> lookup k l' <> None.
Proof.
  intros H Ha Hk.
  apply rename_entries_inv in H as (nd & _ & [[_ ->]|(_ & _ & ->)]); auto.
  destruct (string_dec k b) as [->|Hb].
  - rewrite lookup_upsert_same. discriminate.
  - now rewrite lookup_upsert_other, lookup_delete_other.
Qed.

Lemma rename_all_raises (p : string) (snap : list string) :
  forall (l l' : entries) (e : exn) (o : list line),
  NoDup snap ->
  (forall n, In n snap -> lookup n l <> None) ->
  rename_all p snap l = (Raise e, l', o) -> collision e.
Proof.
  induction snap as [|n snap IH]; intros l l' e o ND Hp H.
  - cbn in H. discriminate.
  - inversion ND as [|? ? Hn ND']; subst.
    apply rename_all_cons in H
      as [[_ H]|[(i & l1 & o2 & _ & Hr & H & _)|(i & e' & _ & Hr & He & _)]].
    + eapply IH; eauto. intros; apply Hp; now right.
    + eapply IH; [exact ND' | | exact H]. intros n' Hn'.
      apply (rename_entries_present n (canon i) n' l l1 Hr).
      * intros ->. contradiction.
      * apply Hp. now right.
    + injection He as ->. eapply rename_entries_raises; eauto.
      apply Hp. now left.
Qed.

Lemma rename_tops_raises (top : entries) :
  forall (top' : entries) (e : exn) (o : list line),
  (forall d l, In (d, Dir l) top -> NoDup (names l)) ->
  rename_tops top = (Raise e, top', o) -> collision e.
Proof.
  induction top as [|[d [c|l]] rest IH]; intros top' e o Hnd H;
    cbn [rename_tops] in H.
  - discriminate.
  - destruct (rename_tops rest) as [[r1 rest'] o1] eqn:E.
    injection H as -> _ _. eapply IH; eauto.
    intros; eapply Hnd; right; eauto.
  - destruct (rename_all (path_join "." d) (names l) l) as [[r0 l'] o0] eqn:E0.
    destruct r0 as [[]|e0].
    + destruct (rename_tops rest) as [[r1 rest'] o1] eqn:E.
      injection H as -> _ _. eapply IH; eauto.
      intros; eapply Hnd; right; eauto.
    + injection H as <- _ _.
      eapply rename_all_raises; [| |exact E0].
      * apply (Hnd d). now left.
      * intros n Hn. now apply lookup_names.
Qed.

(** X2.  The only exceptions that end a run are those of a rename onto a
    name held by something of the other kind, or by a directory that is not
    empty: a file onto a directory, a directory onto a file or onto a
    directory with entries.  The entry to be moved is always still
    there. *)
Theorem renamer_raises_only_collisions (top : entries) (e : exn)
        (st' : state) :
  wf (Dir top) = true ->
  format_directories (boot (Dir top)) = (Raise e, st') ->
  collision e.
Proof.
  intros W H.
  destruct (format_directories_inv _ _ _ W H) as (top' & Ht & _).
  eapply rename_tops_raises; eauto.
  intros d l Hin. destruct (wf_child _ _ _ W Hin) as (_ & Wl & _).
  now apply wf_entries_inv in Wl as [_ ND].
Qed.

Lemma renamer_raises_only_collisions_witness :
  collision IsADirectoryError.
Proof.
  apply (renamer_raises_only_collisions sample_collision IsADirectoryError
           (snd (format_directories (boot (Dir sample_collision))))).
  - reflexivity.
  - reflexivity.
Defined.

Lemma rename_entries_files (a b : string) (l l' : entries) :
  rename_entries a b l = Ok l' ->
  (forall k v, lookup k l = Some v -> is_dir v = false) ->
  forall k v, lookup k l' = Some v -> is_dir v = false.
Proof.
  intros H Hf k v Hk.
  apply rename_entries_inv in H as (nd & Ha & [[_ ->]|(_ & _ & ->)]); eauto.
  destruct (string_dec k b) as [->|Hb].
  - rewrite lookup_upsert_same in Hk. injection Hk as <-. eauto.
  - rewrite lookup_upsert_other in Hk by assumption.
    destruct (string_dec k a) as [->|Hka].
    + rewrite lookup_delete_same in Hk. discriminate.
    + rewrite lookup_delete_other in Hk by assumption. eauto.
Qed.

Lemma rename_all_files (p : string) (snap : list string) :
  forall (l l' : entries) (r : result unit) (o : list line),
  NoDup snap ->
  (forall n, In n snap -> lookup n l <> None) ->
  (forall k v, lookup k l = Some v -> is_dir v = false) ->
  rename_all p snap l = (r, l', o) -> r = Ok tt.
Proof.
  induction snap as [|n snap IH]; intros l l' r o ND Hp Hf H.
  - cbn in H. now injection H as <- _ _.
  - inversion ND as [|? ? Hn ND']; subst.
    apply rename_all_cons in H
      as [[_ H]|[(i & l1 & o2 & _ & Hr & H & _)|(i & e' & _ & Hr & _)]].
    + eapply IH; eauto. intros; apply Hp; now right.
    + eapply IH; [exact ND' | | | exact H].
      * intros n' Hn'.
        apply (rename_entries_present n (canon i) n' l l1 Hr).
        -- intros ->. contradiction.
        -- apply Hp. now right.
      * eapply rename_entries_files; eauto.
    + exfalso. unfold rename_entries in Hr.
      destruct (lookup n l) as [nd|] eqn:En;
        [|apply (Hp n); [now left | assumption]].
      destruct (String.eqb n (canon i)); [discriminate|].
      pose proof (Hf _ _ En) as Fnd.
      destruct nd as [c|sub]; [|discriminate].
      destruct (lookup (canon i) l) as [[x|sub]|] eqn:Ec; try discriminate.
      specialize (Hf _ _ Ec). discriminate.
Qed.

Lemma rename_tops_files (top : entries) :
  forall (r : result unit) (top' : entries) (o : list line),
  (forall d l, In (d, Dir l) top ->
     NoDup (names l) /\
     forall k v, lookup k l = Some v -> is_dir v = false) ->
  rename_tops top = (r, top', o) -> r = Ok tt.
Proof.
  induction top as [|[d [c|l]] rest IH]; intros r top' o Hall H;
    cbn [rename_tops] in H.
  - now injection H as <- _ _.
  - destruct (rename_tops rest) as [[r1 rest'] o1] eqn:E.
    injection H as <- _ _. eapply IH; eauto.
    intros; eapply Hall; right; eauto.
  - destruct (rename_all (path_join "." d) (names l) l) as [[r0 l'] o0] eqn:E0.
    destruct (Hall d l (or_introl eq_refl)) as [ND Hf].
    assert (r0 = Ok tt).
    { eapply rename_all_files; [exact ND | | exact Hf | exact E0].
      intros n Hn. now apply lookup_names. }
    subst r0.
    destruct (rename_tops rest) as [[r1 rest'] o1] eqn:E.
    injection H as <- _ _. eapply IH; eauto.
    intros; eapply Hall; right; eauto.
Qed.

(** X3.  When the child directories hold files only, the run comes to its
    end: no rename can fail. *)
Theorem renamer_completes_on_files (top : entries) :
  wf (Dir top) = true ->
  (forall d l n nd,
     lookup d top = Some (Dir l) -> lookup n l = Some nd ->
     is_dir nd = false) ->
  fst (format_directories (boot (Dir top))) = Ok tt.
Proof.
  intros W Hf.
  destruct (format_directories (boot (Dir top))) as [r st'] eqn:H.
  destruct (format_directories_inv _ _ _ W H) as (top' & Ht & _).
  cbn [fst]. eapply rename_tops_files; [|exact Ht].
  intros d l Hin. destruct (wf_child _ _ _ W Hin) as (_ & Wl & Hd).
  apply wf_entries_inv in Wl as [_ ND]. split; eauto.
Qed.

Lemma renamer_completes_on_files_witness :
  fst (format_directories (boot (Dir sample_materials))) = Ok tt.
Proof.
  apply (renamer_completes_on_files sample_materials).
  - reflexivity.
  - intros d l n nd Hd Hn.
    assert (Hd' : d = "wood" /\
                  l = [("Wood_Base_Color.jpg", File (text "first"));
                       ("wood_ALBEDO_normal.tga", File (text "second"));
                       ("wood_Normal.png", File (text "bumps"));
                       ("readme.txt", File (text "hello"))]).
    { apply lookup_In in Hd. destruct Hd as [E|[E|[]]].
      - discriminate.
      - now injection E as <- <-. }
    destruct Hd' as [-> ->].
    apply lookup_In in Hn. destruct Hn as [E|[E|[E|[E|[]]]]];
      injection E as <- <-; reflexivity.
Defined.

Lemma rename_all_settled (p : string) (snap : list string) (l : entries) :
  (forall n, In n snap -> lookup n l <> None) ->
  (forall n i, In n snap -> first_match n = Some i -> n = canon i) ->
  rename_all p snap l = (Ok tt, l, flat_map (report p) snap).
Proof.
  induction snap as [|n snap IH]; intros Hp Hs; [reflexivity|].
  assert (IH' : rename_all p snap l = (Ok tt, l, flat_map (report p) snap))
    by (apply IH; intros; first [apply Hp | eapply Hs]; simpl; eauto).
  cbn [rename_all flat_map]. unfold rename_step, report.
  destruct (first_match n) as [i|] eqn:Hm.
  - replace (rename_entries n (canon i) l) with (Ok l).
    + now rewrite IH'.
    + rewrite <- (Hs n i (or_introl eq_refl) Hm). unfold rename_entries.
      destruct (lookup n l) eqn:En; [|exfalso; apply (Hp n); simpl; auto].
      now rewrite String.eqb_refl.
  - now rewrite IH'.
Qed.

Lemma rename_tops_settled (top : entries) :
  (forall d l n i, In (d, Dir l) top -> In n (names l) ->
                   first_match n = Some i -> n = canon i) ->
  rename_tops top = (Ok tt, top, expected_output top).
Proof.
  induction top as [|[d [c|l]] rest IH]; intros Hs; [reflexivity| |].
  - cbn [rename_tops]. rewrite IH by (intros; eapply Hs; [right|..]; eauto).
    reflexivity.
  - cbn [rename_tops]. rewrite rename_all_settled.
    + rewrite IH by (intros; eapply Hs; [right|..]; eauto). reflexivity.
    + intros n Hn. now apply lookup_names.
    + intros n i. apply (Hs d l). now left.
Qed.

Lemma format_directories_settled (top : entries) :
  wf (Dir top) = true ->
  settled top ->
  format_directories (boot (Dir top))
  = (Ok tt, mkState (Dir top) (expected_output top)).
Proof.
  intros W Hs. rewrite (format_directories_rename_tops _ W).
  rewrite rename_tops_settled; [reflexivity|].
  intros d l n i Hin. destruct (wf_child _ _ _ W Hin) as (_ & _ & Hd).
  now apply (Hs d l).
Qed.

(** X4.  A working directory in which every matching entry bears its
    canonical name already is left exactly as it is, by a run that comes
    to its end; the run still reports each such entry. *)
Theorem renamer_leaves_settled_tree (top : entries) :
  wf (Dir top) = true ->
  settled top ->
  format_directories (boot (Dir top))
  = (Ok tt, mkState (Dir top) (expected_output top)).
Proof. exact (format_directories_settled top). Qed.

Lemma renamer_leaves_settled_tree_witness :
  format_directories (boot (Dir sample_settled))
  = (Ok tt, mkState (Dir sample_settled) (expected_output sample_settled)).
Proof.
  apply (renamer_leaves_settled_tree sample_settled).
  - reflexivity.
  - intros d l n i Hd Hn Hm.
    apply lookup_In in Hd. destruct Hd as [E|[]]. injection E as <- <-.
    destruct Hn as [<-|[<-|[]]]; vm_compute in Hm.
    + injection Hm as <-. reflexivity.
    + discriminate.
Defined.

(** ** A second run *)

Lemma Forall_delete (Q : node -> Prop) (k : string) (l : entries) :
  Forall (fun kv => Q (snd kv)) l ->
  Forall (fun kv => Q (snd kv)) (delete k l).
Proof.
  induction 1 as [|[k' v] l Hv Hl IH]; cbn; [constructor|].
  destruct (String.eqb k k'); auto.
Qed.

Lemma Forall_upsert (Q : node -> Prop) (k : string) (v : node)
      (l : entries) :
  Q v -> Forall (fun kv => Q (snd kv)) l ->
  Forall (fun kv => Q (snd kv)) (upsert k v l).
Proof.
  intros Hv. induction 1 as [|[k' v'] l Hv' Hl IH]; cbn.
  - repeat constructor. exact Hv.
  - destruct (String.eqb k k'); constructor; auto.
Qed.

(** A run moves nodes about and makes none. *)
Lemma rename_all_Forall (Q : node -> Prop) (p : string)
      (snap : list string) :
  forall (l l' : entries) (r : result unit) (o : list line),
  Forall (fun kv => Q (snd kv)) l ->
  rename_all p snap l = (r, l', o) ->
  Forall (fun kv => Q (snd kv)) l'.
Proof.
  induction snap as [|n snap IH]; intros l l' r o HQ H.
  - cbn in H. now injection H as _ <- _.
  - apply rename_all_cons in H
      as [[_ H]|[(i & l1 & o2 & _ & Hr & H & _)|(i & e' & _ & _ & _ & -> & _)]];
      eauto.
    eapply IH; [|exact H].
    apply rename_entries_inv in Hr as (nd & Hn & [[_ ->]|(_ & _ & ->)]); auto.
    apply Forall_upsert; [|now apply Forall_delete].
    apply lookup_In in Hn. rewrite Forall_forall in HQ.
    exact (HQ _ Hn).
Qed.

(** The run keeps the tree well formed. *)
Lemma rename_tops_wf (top : entries) :
  forall (r : result unit) (top' : entries) (o : list line),
  Forall (fun kv => wf (snd kv) = true) top ->
  rename_tops top = (r, top', o) ->
  Forall (fun kv => wf (snd kv) = true) top'.
Proof.
  induction top as [|[d [c|l]] rest IH]; intros r top' o W H;
    cbn [rename_tops] in H; inversion W as [|? ? Wd Wrest]; subst.
  - now injection H as _ <- _.
  - destruct (rename_tops rest) as [[r1 rest'] o1] eqn:E.
    injection H as _ <- _. constructor; eauto.
  - cbn [snd] in Wd. apply wf_Dir in Wd as [Wl Wc].
    destruct (rename_all (path_join "." d) (names l) l) as [[r0 l'] o0] eqn:E0.
    assert (Wl' : wf (Dir l') = true).
    { apply wf_Dir. split.
      - eapply rename_all_wf; eauto.
      - exact (rename_all_Forall (fun v => wf v = true) _ _ _ _ _ _ Wc E0). }
    destruct r0 as [[]|e0].
    + destruct (rename_tops rest) as [[r1 rest'] o1] eqn:E.
      injection H as _ <- _. constructor; eauto.
    + injection H as _ <- _. constructor; auto.
Qed.

Lemma format_directories_wf (top : entries) (r : result unit)
      (st' : state) :
  wf (Dir top) = true ->
  format_directories (boot (Dir top)) = (r, st') ->
  wf (fs st') = true.
Proof.
  intros W H.
  destruct (format_directories_inv _ _ _ W H) as (top' & Ht & ->).
  apply wf_Dir in W as [We Wc]. apply wf_Dir. split.
  - unfold wf_entries in *. now rewrite (rename_tops_names _ _ _ _ Ht).
  - eapply rename_tops_wf; eauto.
Qed.

(** After a directory has been gone through, every matching entry bears
    its canonical name. *)
Lemma rename_all_result_settled (p : string) (l l' : entries)
      (o : list line) :
  NoDup (names l) ->
  rename_all p (names l) l = (Ok tt, l', o) ->
  forall k i, In k (names l') -> first_match k = Some i -> k = canon i.
Proof.
  intros ND H k i Hk Hm.
  apply lookup_names in Hk.
  destruct (lookup k l') as [v|] eqn:Ek; [clear Hk | congruence].
  destruct (rename_all_origin _ _ _ _ _ _ _ _ H Ek) as (n & Hn & [->|(j & Hj & ->)]).
  - destruct (string_dec n (canon i)) as [E|N]; [exact E|].
    exfalso.
    assert (Hin : In n (names l)) by (apply lookup_names; congruence).
    apply in_split in Hin as (s1 & s2 & Es).
    rewrite Es in H, ND.
    destruct (rename_all_last p s1 s2 n i v l l' o H ND Hn Hm N)
      as (Hgone & _).
    congruence.
  - rewrite (first_match_canon _ (first_match_lt _ _ Hj)) in Hm.
    now injection Hm as <-.
Qed.

(** X5.  Running the renamer again after a run that came to its end also
    comes to its end and changes nothing: what the first run left is
    well formed, every matching entry in it bears its canonical name, and
    the second run leaves that tree as it is. *)
Theorem renamer_second_run_changes_nothing (top : entries) (st' : state) :
  wf (Dir top) = true ->
  format_directories (boot (Dir top)) = (Ok tt, st') ->
  exists top',
    fs st' = Dir top' /\ wf (Dir top') = true /\ settled top' /\
    format_directories (boot (fs st'))
    = (Ok tt, mkState (fs st') (expected_output top')).
Proof.
  intros W H.
  pose proof (format_directories_wf _ _ _ W H) as W'.
  destruct (format_directories_inv _ _ _ W H) as (top' & Ht & Hfs).
  rewrite Hfs in W'.
  assert (Hs : settled top').
  { intros d l' n i Hd' Hn Hm.
    destruct (rename_tops_kind _ _ _ _ _ _ Ht Hd') as (l & Hd).
    destruct (wf_child _ _ _ W (lookup_In _ _ _ Hd)) as (_ & Wl & _).
    apply wf_entries_inv in Wl as [_ ND].
    destruct (format_directories_dir _ _ _ _ _ W H Hd)
      as (top2 & l2 & r1 & snap & o1 & Hfs2 & Hl2 & Hall & _ & _ & Hok).
    destruct (Hok eq_refl) as [-> ->].
    rewrite Hfs in Hfs2. injection Hfs2 as <-.
    rewrite Hd' in Hl2. injection Hl2 as <-.
    eapply rename_all_result_settled; eauto. }
  exists top'. repeat split; auto.
  rewrite Hfs. now apply format_directories_settled.
Qed.

Lemma renamer_second_run_changes_nothing_witness :
  exists top',
    fs (snd (format_directories (boot (Dir sample_materials)))) = Dir top' /\
    wf (Dir top') = true /\ settled top' /\
    format_directories
      (boot (fs (snd (format_directories (boot (Dir sample_materials))))))
    = (Ok tt,
       mkState (fs (snd (format_directories (boot (Dir sample_materials)))))
               (expected_output top')).
Proof.
  apply (renamer_second_run_changes_nothing sample_materials).
  - reflexivity.
  - reflexivity.
Defined.

(* ================================================================== *)
(** * What a pattern of the table hits *)





(* ================================================================== *)
(** * The stager: every way a run can go after the build *)

Ltac failed_copy H :=
  right; eexists _, _, _; split;
  [ apply bind_raise; exact H | split; reflexivity ].

(** The loop over the asset directories, with what a failure leaves. *)
Lemma copy_dirs_outcome (t : entries) (out : list line) :
  lookup staging_dir t = None ->
  (exists m mo sh sk,
     lookup "materials" t = Some (Dir m) /\
     lookup "models" t = Some (Dir mo) /\
     lookup "shaders" t = Some (Dir sh) /\
     lookup "skyboxes" t = Some (Dir sk) /\
     for_each dirs (fun d => shutil_copytree d (staging_dir ++ "/" ++ d))
       (mkState (Dir (t ++ [(staging_dir, Dir [])])%list) out) =
     (Ok tt,
      mkState (Dir (t ++ [(staging_dir,
                           Dir [("materials", Dir m); ("models", Dir mo);
                                ("shaders", Dir sh); ("skyboxes", Dir sk)])])%list)
              out))
  \/ (exists e s' S,
        for_each dirs (fun d => shutil_copytree d (staging_dir ++ "/" ++ d))
          (mkState (Dir (t ++ [(staging_dir, Dir [])])%list) out) =
        (Raise e, s') /\
        s' = mkState (Dir (t ++ [(staging_dir, Dir S)])%list) out /\
        staged t = None).
Proof.
  intros Ht. unfold staged. cbn [for_each dirs].
  pose proof (copytree_into_staging t [] "materials" out eq_refl eq_refl
                ltac:(discriminate) Ht eq_refl) as H1.
  destruct (lookup "materials" t) as [[c|m]|];
    [failed_copy H1 | returned H1 | failed_copy H1].
  pose proof (copytree_into_staging t _ "models" out eq_refl eq_refl
                ltac:(discriminate) Ht
                (eq_refl : lookup "models" [("materials", Dir m)] = None))
    as H2.
  destruct (lookup "models" t) as [[c|mo]|];
    [failed_copy H2 | returned H2 | failed_copy H2].
  pose proof (copytree_into_staging t _ "shaders" out eq_refl eq_refl
                ltac:(discriminate) Ht
                (eq_refl : lookup "shaders"
                             [("materials", Dir m); ("models", Dir mo)] = None))
    as H3.
  destruct (lookup "shaders" t) as [[c|sh]|];
    [failed_copy H3 | returned H3 | failed_copy H3].
  pose proof (copytree_into_staging t _ "skyboxes" out eq_refl eq_refl
                ltac:(discriminate) Ht
                (eq_refl : lookup "skyboxes"
                             [("materials", Dir m); ("models", Dir mo);
                              ("shaders", Dir sh)] = None))
    as H4.
  destruct (lookup "skyboxes" t) as [[c|sk]|];
    [failed_copy H4 | returned H4 | failed_copy H4].
  left. exists m, mo, sh, sk. repeat split; reflexivity.
Qed.

(** Lines 14 to 29, in full: the run comes to its end exactly under the
    conditions of the first case; otherwise an exception ends it, one of
    the conditions fails, the working directory is as the build left it
    but for a staging directory, and the last line is not printed. *)
Lemma stage_after_build_outcome (seconds : string) (t : entries)
      (out : list line) :
  (exists S,
     lookup staging_dir t = None /\ staged t = Some (Dir S) /\
     (forall l, lookup "hot_chickens.7z" t <> Some (Dir l)) /\
     stage_after_build seconds (mkState (Dir t) out) =
     (Ok tt,
      mkState
        (Dir (upsert "hot_chickens.7z"
                (File (SevenZ (writeall_walk staging_dir (Dir S)))) t))
        (out ++ [Compressing; DoneIn seconds])%list))
  \/ (exists e s',
        stage_after_build seconds (mkState (Dir t) out) = (Raise e, s') /\
        (lookup staging_dir t <> None \/ staged t = None \/
         exists l, lookup "hot_chickens.7z" t = Some (Dir l)) /\
        ((fs s' = Dir t /\ lookup staging_dir t <> None) \/
         (exists S, lookup staging_dir t = None /\
                    fs s' = Dir (t ++ [(staging_dir, Dir S)])%list)) /\
        (stdout s' = out \/ stdout s' = (out ++ [Compressing])%list)).
Proof.
  change (stage_after_build seconds) with
    (os_mkdir staging_dir ;;;
     for_each dirs (fun d => shutil_copytree d (staging_dir ++ "/" ++ d)) ;;;
     shutil_copy "target/release/hot_chickens.exe" (staging_dir ++ "/") ;;;
     stage_archive seconds).
  pose proof (mkdir_staging t out) as Hmk.
  destruct (lookup staging_dir t) eqn:Ht.
  { right. eexists _, _. split; [apply bind_raise; exact Hmk|].
    cbn [fs stdout]. split; [left; discriminate|].
    split; [left; split; [reflexivity | discriminate] | now left]. }
  returned Hmk.
  destruct (copy_dirs_outcome t out Ht)
    as [(m & mo & sh & sk & E1 & E2 & E3 & E4 & Hloop)
       |(e & s' & S & Hloop & -> & Hst)].
  2:{ right. eexists _, _. split; [apply bind_raise; exact Hloop|].
      cbn [fs stdout]. split; [right; left; exact Hst|].
      split; [right; eauto | now left]. }
  returned Hloop.
  pose proof (copy_executable t _ out Ht
                (eq_refl : lookup "hot_chickens.exe"
                             [("materials", Dir m); ("models", Dir mo);
                              ("shaders", Dir sh); ("skyboxes", Dir sk)]
                           = None)) as Hexe.
  unfold staged. rewrite E1, E2, E3, E4.
  destruct (get ["target"; "release"; "hot_chickens.exe"] (Dir t))
    as [[x|ents]|].
  2,3: right; eexists _, _; (split; [apply bind_raise; exact Hexe|]);
       cbn [fs stdout]; (split; [right; left; reflexivity|]);
       (split; [right; eauto | now left]).
  returned Hexe.
  cbn [app]. rewrite (stage_archive_run seconds t _ out Ht).
  destruct (lookup "hot_chickens.7z" t) as [[y|ents]|] eqn:Ea.
  - left. eexists. repeat split; auto. discriminate.
  - right. eexists _, _. split; [reflexivity|]. cbn [fs stdout].
    split; [right; right; eauto|]. split; [right; eauto | now right].
  - left. eexists. repeat split; auto. discriminate.
Qed.

(** X7.  The stager comes to its end exactly when: what is at the staging
    name at the start is not a file; the build exits with status 0 and
    leaves a working directory without an entry at the staging name, with
    the four asset directories as directories and the executable as a
    file; and the output name is not held by a directory. *)
Theorem stage_completes_iff (cargo : node -> completed) (seconds : string)
        (top : entries) :
  (exists st', stage cargo seconds (boot (Dir top)) = (Ok tt, st')) <->
  (forall c, lookup staging_dir top <> Some (File c)) /\
  exists t S,
    cargo (Dir (delete staging_dir top)) = Exited 0 (Dir t) /\
    lookup staging_dir t = None /\
    staged t = Some (Dir S) /\
    (forall l, lookup "hot_chickens.7z" t <> Some (Dir l)).
Proof.
  rewrite stage_run. split.
  - intros [st' H]. split.
    + intros c Hc. rewrite Hc in H. discriminate.
    + assert (Hrun : exists rc after,
                cargo (Dir (delete staging_dir top)) = Exited rc after /\
                Z.eqb rc 0 = true /\
                stage_after_build seconds (boot after) = (Ok tt, st')).
      { destruct (lookup staging_dir top) as [[c|l]|];
          try discriminate;
          (destruct (cargo (Dir (delete staging_dir top))) as [rc after|];
           [|discriminate]);
          (destruct (Z.eqb rc 0) eqn:Erc; [|discriminate]); eauto. }
      destruct Hrun as (rc & after & Hc & Erc & Hrest).
      apply Z.eqb_eq in Erc. subst rc.
      destruct after as [x|t]; [cbv in Hrest; discriminate|].
      unfold boot in Hrest.
      destruct (stage_after_build_outcome seconds t [])
        as [(S & Ht & HS & Ha & _)|(e & s' & Hbad & _)]; [|congruence].
      exists t, S. auto.
  - intros (Hnf & t & S & Hc & Ht & HS & Ha). rewrite Hc.
    change (Z.eqb 0 0) with true. cbv iota. unfold boot.
    assert (Hgo : exists st',
              stage_after_build seconds (mkState (Dir t) []) = (Ok tt, st')).
    { destruct (stage_after_build_outcome seconds t [])
        as [(S' & _ & _ & _ & Hok)|(e & s' & _ & Hcond & _)]; [eauto|].
      exfalso. destruct Hcond as [H|[H|(l & H)]].
      - contradiction.
      - congruence.
      - exact (Ha _ H). }
    destruct (lookup staging_dir top) as [[c|l]|] eqn:E; auto.
    exfalso. exact (Hnf c eq_refl).
Qed.

(** X8.  The stager copies and never moves: after a run that came to its
    end, whatever a walk led to in the working directory the build left,
    it still leads to, unless the walk starts at the output name. *)
Theorem stage_leaves_sources (cargo : node -> completed) (seconds : string)
        (top t : entries) (st' : state) :
  stage cargo seconds (boot (Dir top)) = (Ok tt, st') ->
  cargo (Dir (delete staging_dir top)) = Exited 0 (Dir t) ->
  forall k p, k <> "hot_chickens.7z" ->
              get (k :: p) (fs st') = get (k :: p) (Dir t).
Proof.
  intros H Hc k p Hk.
  destruct (stage_success _ _ _ _ H) as (t' & S & Hc' & _ & _ & Hfs & _).
  rewrite Hc in Hc'. injection Hc' as <-.
  rewrite Hfs. cbn [get]. now rewrite lookup_upsert_other.
Qed.

Lemma stage_leaves_sources_witness :
  get ["materials"; "wood"; "albedo.png"]
      (fs (snd (stage build_ok "1.0000" (boot (Dir sample_checkout)))))
  = get ["materials"; "wood"; "albedo.png"]
        (Dir (delete staging_dir sample_checkout)).
Proof.
  apply (stage_leaves_sources build_ok "1.0000" sample_checkout).
  - reflexivity.
  - reflexivity.
  - discriminate.
Defined.

(** X9.  No cleanup on error: when the build succeeds and a later step
    raises, the run ends with an entry at the staging name, the closing
    line is not printed, and everything else in the working directory,
    the output name included, is as the build left it. *)
Theorem failed_assembly_leaves_staging (cargo : node -> completed)
        (seconds : string) (top t : entries) (e : exn) (st' : state) :
  (forall c, lookup staging_dir top <> Some (File c)) ->
  cargo (Dir (delete staging_dir top)) = Exited 0 (Dir t) ->
  stage cargo seconds (boot (Dir top)) = (Raise e, st') ->
  get [staging_dir] (fs st') <> None /\
  ~ In (DoneIn seconds) (stdout st') /\
  (forall k p, k <> staging_dir ->
               get (k :: p) (fs st') = get (k :: p) (Dir t)).
Proof.
  intros Hnf Hc H. rewrite stage_run, Hc in H.
  change (Z.eqb 0 0) with true in H. cbv iota in H. unfold boot in H.
  assert (Hrun : stage_after_build seconds (mkState (Dir t) [])
                 = (Raise e, st')).
  { destruct (lookup staging_dir top) as [[c|l]|] eqn:E; auto.
    exfalso. exact (Hnf c eq_refl). }
  clear H.
  destruct (stage_after_build_outcome seconds t [])
    as [(S & _ & _ & _ & Hok)|(e' & s' & Hbad & _ & Hfs & Hout)];
    [congruence|].
  rewrite Hbad in Hrun. injection Hrun as <- <-.
  split; [|split].
  - destruct Hfs as [[-> Hd]|(S & Ht & ->)].
    + now rewrite get_top.
    + rewrite get_top, lookup_app, Ht. cbn [lookup].
      rewrite String.eqb_refl. discriminate.
  - destruct Hout as [->| ->]; cbn; intuition discriminate.
  - intros k p Hk. destruct Hfs as [[-> _]|(S & _ & ->)]; [reflexivity|].
    now apply get_app_other.
Qed.

Lemma failed_assembly_leaves_staging_witness :
  get [staging_dir]
      (fs (snd (stage build_ok "1.0000"
                  (boot (Dir (delete "shaders" sample_checkout)))))) <> None /\
  ~ In (DoneIn "1.0000")
       (stdout (snd (stage build_ok "1.0000"
                       (boot (Dir (delete "shaders" sample_checkout)))))) /\
  (forall k p, k <> staging_dir ->
     get (k :: p)
         (fs (snd (stage build_ok "1.0000"
                     (boot (Dir (delete "shaders" sample_checkout))))))
     = get (k :: p)
           (Dir (delete staging_dir (delete "shaders" sample_checkout)))).
Proof.
  apply (failed_assembly_leaves_staging build_ok "1.0000"
           (delete "shaders" sample_checkout) _ FileNotFoundError).
  - intros c. vm_compute. discriminate.
  - reflexivity.
  - reflexivity.
Defined.

(** Every member of the walk of a well-formed tree is a node of the tree,
    under the path that leads to it. *)
Lemma writeall_walk_sound (n : node) :
  forall path q m,
  wf n = true -> resolve path <> [] ->
  In (q, m) (writeall_walk path n) ->
  (q = path /\ m = member_of n) \/
  (exists c p nd, get (c :: p) n = Some nd /\
                  q = path ++ "/" ++ join_path (c :: p) /\
                  m = member_of nd).
Proof.
  induction n as [d|ents IH] using node_ind2; intros path q m W Hp Hin.
  - destruct Hin as [[= <- <-]|[]]. now left.
  - rewrite writeall_walk_Dir in Hin.
    apply wf_Dir in W as [We Wc]. apply wf_entries_inv in We as [_ ND].
    destruct (resolve path) as [|r0 rp] eqn:Ep; [contradiction|].
    apply in_app_or in Hin as [[[= <- <-]|[]]|Hin]; [now left|].
    right. apply in_concat in Hin as (g & Hg & Hq).
    apply in_map_iff in Hg as ([k g'] & <- & Hg).
    apply (proj1 (In_sort_by_name _ _)) in Hg.
    apply in_map_iff in Hg as ([c ch] & [= <- <-] & Hc).
    cbn [fst snd] in Hq.
    rewrite Forall_forall in IH, Wc.
    destruct (IH _ Hc (path ++ "/" ++ c) q m (Wc _ Hc)) as
      [[-> ->]|(c' & p & nd & Hget & -> & ->)]; auto.
    + rewrite resolve_app, Ep. discriminate.
    + exists c, [], ch. cbn [get join_path].
      rewrite (NoDup_In_lookup _ _ _ ND Hc). auto.
    + exists c, (c' :: p), nd. cbn [get].
      rewrite (NoDup_In_lookup _ _ _ ND Hc). repeat split; auto.
      change (join_path (c :: c' :: p))
        with (c ++ "/" ++ join_path (c' :: p)).
      change ((path ++ "/" ++ c) ++ "/" ++ join_path (c' :: p))
        with ((path ++ String "/" c) ++ String "/" (join_path (c' :: p))).
      now rewrite string_app_assoc.
Qed.

(** X10.  The archive of a run that came to its end holds the staging
    tree and nothing else: its members are the staging directory and, one
    for one, the nodes of the tree assembled from what the build left,
    each under its path below the staging directory, a file with the
    bytes it has in the working directory. *)
Theorem archive_members_are_staged_nodes (cargo : node -> completed)
        (seconds : string) (top t : entries) (st' : state) :
  stage cargo seconds (boot (Dir top)) = (Ok tt, st') ->
  cargo (Dir (delete staging_dir top)) = Exited 0 (Dir t) ->
  wf (Dir t) = true ->
  exists staging members,
    staged t = Some staging /\
    archive_of st' = Some members /\
    forall q m,
      In (q, m) members <->
      (q = staging_dir /\ m = MDir) \/
      (exists c p nd, get (c :: p) staging = Some nd /\
                      q = staging_dir ++ "/" ++ join_path (c :: p) /\
                      m = member_of nd).
Proof.
  intros H Hc W.
  destruct (stage_success _ _ _ _ H) as (t' & S & Hc' & _ & HS & Hfs & _).
  rewrite Hc in Hc'. injection Hc' as <-.
  exists (Dir S), (writeall_walk staging_dir (Dir S)).
  split; [exact HS|]. split; [exact (archive_of_fs _ _ _ Hfs)|].
  assert (WS : wf (Dir S) = true).
  { destruct (staged_inv _ _ HS)
      as (m & mo & sh & sk & x & E1 & E2 & E3 & E4 & _ & ->).
    apply wf_Dir in W as [_ Wc]. rewrite Forall_forall in Wc.
    apply wf_Dir. split; [reflexivity|].
    repeat constructor; cbn [snd];
      match goal with
      | |- wf (Dir ?d) = true =>
          match goal with
          | E : lookup _ t = Some (Dir d) |- _ =>
              exact (Wc _ (lookup_In _ _ _ E))
          end
      end. }
  assert (Hr : resolve staging_dir <> []) by discriminate.
  intros q m. split.
  - intros Hin.
    destruct (writeall_walk_sound (Dir S) staging_dir q m WS Hr Hin)
      as [[-> ->]|Hn]; auto.
  - destruct (writeall_walk_complete (Dir S) staging_dir Hr) as [Hroot Hall].
    intros [[-> ->]|(c & p & nd & Hget & -> & ->)].
    + exact Hroot.
    + exact (Hall _ _ _ Hget).
Qed.

Lemma archive_members_are_staged_nodes_witness :
  exists staging members,
    staged (delete staging_dir sample_checkout) = Some staging /\
    archive_of (snd (stage build_ok "1.0000" (boot (Dir sample_checkout))))
    = Some members /\
    forall q m,
      In (q, m) members <->
      (q = staging_dir /\ m = MDir) \/
      (exists c p nd, get (c :: p) staging = Some nd /\
                      q = staging_dir ++ "/" ++ join_path (c :: p) /\
                      m = member_of nd).
Proof.
  apply (archive_members_are_staged_nodes build_ok "1.0000" sample_checkout).
  - reflexivity.
  - reflexivity.
  - reflexivity.
Defined.
